(** * SIR comparison of bubonic plague and COVID-19 in Denver

    A shallow embedding of [LogisticGrowthGraph_BubonicPlaguevsCovid19.py].

    The script is written once, over an abstract scalar type (class
    [Scalar]): Python's [float] operations are the class methods.  Two
    instances are given:
    - [Scalar_R], exact real arithmetic, in which the analytic properties of
      the model (conservation, monotonicity) are proved;
    - [Scalar_float], IEEE 754 binary64 with round-to-nearest-even, which is
      what CPython and numpy execute, and on which the script can be run by
      [vm_compute].

    Python exceptions are values of [exn]; a computation that may raise
    returns a [result].  scipy's solver and matplotlib's layout are not
    part of the script: it takes them as parameters. *)

From Stdlib Require Import ZArith QArith Qabs List String Ascii Bool Lia.
From Stdlib Require Import DecimalString Reals Lra Floats.
Import ListNotations.

(* ================================================================== *)
(** * Exceptions *)
(* ================================================================== *)

(** The exceptions the script can raise. *)
Inductive exn : Type :=
| ZeroDivisionError
| ValueError
| IndexError.

Inductive result (A : Type) : Type :=
| Ok (a : A)
| Raise (e : exn).

Arguments Ok {A} a.
Arguments Raise {A} e.

Definition bind {A B : Type} (c : result A) (k : A -> result B) : result B :=
  match c with
  | Ok a => k a
  | Raise e => Raise e
  end.

Declare Scope py_scope.
Delimit Scope py_scope with py.
Notation "x <- c ;; k" := (bind c (fun x => k))
  (at level 61, c at next level, right associativity) : py_scope.
Notation "c ;;; k" := (bind c (fun _ => k))
  (at level 61, right associativity) : py_scope.
Local Open Scope py_scope.

(* ================================================================== *)
(** * Scalars *)
(* ================================================================== *)

(** Python's [float], abstractly.  [lit q] is the float denoted by a numeric
    literal whose exact value is the rational [q] (an [int] converted to
    [float] is [lit] of that integer); [leb] is [<=], which is [false] as
    soon as an operand is NaN. *)
Class Scalar (num : Type) : Type := {
  lit : Q -> num;
  neg : num -> num;
  add : num -> num -> num;
  sub : num -> num -> num;
  mul : num -> num -> num;
  div : num -> num -> num;
  leb : num -> num -> bool;
  isnan : num -> bool
}.

(** [float(n)] for a Python [int] [n]. *)
Definition fromZ {num} `{Scalar num} (n : Z) : num := lit (inject_Z n).

(** The format specification [.0f]. *)
Class Format (num : Type) : Type := {
  fmt0 : num -> string
}.

(** ** Exact reals *)

Definition Rleb (x y : R) : bool := if Rle_dec x y then true else false.

#[global] Instance Scalar_R : Scalar R := {
  lit := Q2R;
  neg := Ropp;
  add := Rplus;
  sub := Rminus;
  mul := Rmult;
  div := Rdiv;
  leb := Rleb;
  isnan := fun _ => false
}.

(** ** binary64 *)

(** [float(n)]: the integer rounded to the nearest binary64 value. *)
Definition float_of_Z (n : Z) : float :=
  SF2Prim (binary_normalize prec emax n 0 false).

(** A literal [p/q] whose numerator and denominator are exactly
    representable is their correctly rounded quotient. *)
Definition float_lit (q : Q) : float :=
  PrimFloat.div (float_of_Z (Qnum q)) (float_of_Z (Zpos (Qden q))).

#[global] Instance Scalar_float : Scalar float := {
  lit := float_lit;
  neg := PrimFloat.opp;
  add := PrimFloat.add;
  sub := PrimFloat.sub;
  mul := PrimFloat.mul;
  div := PrimFloat.div;
  leb := PrimFloat.leb;
  isnan := fun x => negb (PrimFloat.eqb x x)
}.

(* ================================================================== *)
(** * The model *)
(* ================================================================== *)

(** Total population of Denver. *)
Definition N : Z := 729000.

(** Initial conditions: one infected, rest susceptible, no recovered. *)
Definition I0 : Z := 1.
Definition S0 : Z := N - I0.
Definition R0 : Z := 0.

Section Script.

Context {num : Type} `{Scalar num}.

(** [x / n] for a float [x] and an [int] [n]: Python raises
    [ZeroDivisionError] when the divisor is zero.  (A numpy scalar would
    return an infinity or NaN with a warning instead; the model keeps the
    stricter behaviour.) *)
Definition truediv_int (x : num) (n : Z) : result num :=
  if Z.eqb n 0 then Raise ZeroDivisionError else Ok (div x (fromZ n)).

(** Bubonic plague parameters. *)
Definition beta_plague : num := lit 0.3.
Definition gamma_plague : num := lit 0.1.

(** COVID-19 parameters. *)
Definition beta_covid : num := lit 0.5.
Definition gamma_covid : num := lit 0.1.

(** SIR model differential equations.  [S, I, R = y] raises [ValueError]
    unless [y] has exactly three components.  [-beta * S * I / N] parses as
    [(((-beta) * S) * I) / N].  The components are written [S_], [I_], [R_]:
    [S] and [I] are constructors and [R] is the type of the reals. *)
Definition sir_model (t : num) (y : list num) (beta gamma : num)
  : result (list num) :=
  match y with
  | [S_; I_; R_] =>
      dSdt <- truediv_int (mul (mul (neg beta) S_) I_) N ;;
      q <- truediv_int (mul (mul beta S_) I_) N ;;
      let dIdt := sub q (mul gamma I_) in
      let dRdt := mul gamma I_ in
      Ok [dSdt; dIdt; dRdt]
  | _ => Raise ValueError
  end.

(** ** Arrays

    numpy, matplotlib and scipy are libraries the script imports; they are
    not part of it.  Their functions are modelled after their documented
    behaviour, as far as the script depends on it.  A one-dimensional array
    is a list, a two-dimensional one a list of rows. *)

(** [a[i]] with Python's negative indices; out of range raises
    [IndexError]. *)
Definition getitem {A : Type} (a : list A) (i : Z) : result A :=
  let n := Z.of_nat (List.length a) in
  let j := if (i <? 0)%Z then (i + n)%Z else i in
  if ((0 <=? j)%Z && (j <? n)%Z)%bool then
    match nth_error a (Z.to_nat j) with
    | Some x => Ok x
    | None => Raise IndexError
    end
  else Raise IndexError.

(** [a[i, j]] *)
Definition getitem2 {A : Type} (a : list (list A)) (i j : Z) : result A :=
  row <- getitem a i ;; getitem row j.

(** [np.argmax]: the index of the first occurrence of the maximum.  The
    scan replaces the running maximum [mp] by [x] unless [x <= mp]; a NaN
    therefore counts as maximal, and the scan stops at the first one.
    [max_ind] is the index of [mp], [i] the index of the head of [a]. *)
Fixpoint argmax_from (mp : num) (max_ind i : nat) (a : list num) : nat :=
  match a with
  | [] => max_ind
  | x :: a' =>
      if negb (leb x mp) then
        if isnan x then i else argmax_from x i (S i) a'
      else argmax_from mp max_ind (S i) a'
  end.

(** An empty sequence has no argmax: [ValueError]. *)
Definition argmax (a : list num) : result Z :=
  match a with
  | [] => Raise ValueError
  | x :: a' =>
      if isnan x then Ok 0%Z else Ok (Z.of_nat (argmax_from x 0 1 a'))
  end.

(** [np.linspace(start, stop, n)]: [n] evenly spaced samples, both ends
    included; sample [i] is [i * step + start] and the last one is
    [stop] itself. *)
Definition linspace (start stop : num) (n : nat) : list num :=
  match n with
  | O => []
  | S O => [start]
  | S m =>
      let step := div (sub stop start) (fromZ (Z.of_nat m)) in
      (map (fun i => add (mul (fromZ (Z.of_nat i)) step) start) (seq 0 m)
         ++ [stop])%list
  end.

(** Time points (e.g., 160 days) *)
Definition t_span : Z * Z := (0, 160)%Z.
Definition t_eval : list num :=
  linspace (fromZ (fst t_span)) (fromZ (snd t_span)) 160.

(** ** The solver

    What [solve_ivp] returns: the sample times [t] and the array [y], one
    row per component, one column per sample. *)
Record OdeResult : Type := {
  t : list num;
  y : list (list num)
}.

(** [scipy.integrate.solve_ivp] is not part of this program: the script is
    parametrised by it.  Its arguments are those of the call sites: the
    right-hand side, the time span, the initial state, [args] and
    [t_eval]. *)
Definition solver : Type :=
  (num -> list num -> num -> num -> result (list num)) ->
  Z * Z -> list Z -> num * num -> list num -> result OdeResult.

(** ** Plotting

    A curve of the figure: the abscissae and the ordinates of one
    [plt.plot] call. *)
Definition curve : Type := (list num * list num)%type.

(** [plt.plot(x, y, ...)] raises [ValueError] when [x] and [y] differ in
    length; otherwise the curve joins the axes. *)
Definition plot (x ys : list num) : result curve :=
  if Nat.eqb (List.length x) (List.length ys) then Ok (x, ys)
  else Raise ValueError.

(** One panel: the three compartments and the estimated deaths,
    [sol.y[1] * ratio].  The other calls of a panel (subplot, title, labels,
    legend, grid) take constants only. *)
Definition panel (sol : OdeResult) (ratio : num) : result (list curve) :=
  y0 <- getitem (y sol) 0 ;; c0 <- plot (t sol) y0 ;;
  y1 <- getitem (y sol) 1 ;; c1 <- plot (t sol) y1 ;;
  y2 <- getitem (y sol) 2 ;; c2 <- plot (t sol) y2 ;;
  y1' <- getitem (y sol) 1 ;;
  c3 <- plot (t sol) (map (fun v => mul v ratio) y1') ;;
  Ok [c0; c1; c2; c3].

(** [plt.tight_layout()] and [plt.show()] lay the figure out and draw it.
    Whether they succeed depends on the curves: matplotlib cannot place the
    ticks of an axis whose data range overflows, and raises [ValueError].
    Like the solver, matplotlib is not part of this program: the script is
    parametrised by the verdict of the layout on the curves of the two
    panels.  None of the plotting calls writes to standard output. *)
Definition layout : Type := list curve -> list curve -> bool.

(** Bubonic plague on the left, COVID-19 on the right. *)
Definition plotting (tight_layout : layout) (sol_plague sol_covid : OdeResult)
  : result unit :=
  left <- panel sol_plague (lit 0.1) ;;
  right <- panel sol_covid (lit 0.014) ;;
  if tight_layout left right then Ok tt else Raise ValueError.

(** ** Final numbers after simulation *)

Definition S_final_plague (sol_plague : OdeResult) : result num :=
  getitem2 (y sol_plague) 0 (-1).
Definition I_final_plague (sol_plague : OdeResult) : result num :=
  getitem2 (y sol_plague) 1 (-1).
Definition R_final_plague (sol_plague : OdeResult) : result num :=
  getitem2 (y sol_plague) 1 (-1).

Definition S_final_covid (sol_covid : OdeResult) : result num :=
  getitem2 (y sol_covid) 0 (-1).
Definition I_final_covid (sol_covid : OdeResult) : result num :=
  getitem2 (y sol_covid) 1 (-1).
Definition R_final_covid (sol_covid : OdeResult) : result num :=
  getitem2 (y sol_covid) 2 (-1).

(** Total infected: total population (N) minus susceptible at end. *)
Definition total_infected_plague (sol_plague : OdeResult) : result num :=
  S_final <- S_final_plague sol_plague ;; Ok (sub (fromZ N) S_final).
Definition total_infected_covid (sol_covid : OdeResult) : result num :=
  S_final <- S_final_covid sol_covid ;; Ok (sub (fromZ N) S_final).

(** Total deaths assuming 10% fatality for the plague, 1.4% for COVID-19. *)
Definition deaths_plague (sol_plague : OdeResult) : result num :=
  total_infected <- total_infected_plague sol_plague ;;
  Ok (mul total_infected (lit 0.1)).
Definition deaths_covid (sol_covid : OdeResult) : result num :=
  total_infected <- total_infected_covid sol_covid ;;
  Ok (mul total_infected (lit 0.014)).

(** The day at which the infected series is largest:
    [sol.t[np.argmax(sol.y[1])]]. *)
Definition peak_day_plague (sol_plague : OdeResult) : result num :=
  y1 <- getitem (y sol_plague) 1 ;; i <- argmax y1 ;; getitem (t sol_plague) i.
Definition peak_day_covid (sol_covid : OdeResult) : result num :=
  y1 <- getitem (y sol_covid) 1 ;; i <- argmax y1 ;; getitem (t sol_covid) i.

(** The amount infected at the peak: [sol.y[1][np.argmax(sol.y[1])]]. *)
Definition peak_infected_plague (sol_plague : OdeResult) : result num :=
  y1 <- getitem (y sol_plague) 1 ;;
  y1' <- getitem (y sol_plague) 1 ;; i <- argmax y1' ;; getitem y1 i.
Definition peak_infected_covid (sol_covid : OdeResult) : result num :=
  y1 <- getitem (y sol_covid) 1 ;;
  y1' <- getitem (y sol_covid) 1 ;; i <- argmax y1' ;; getitem y1 i.

(** Total dead at peak *)
Definition deaths_peak_plague (sol_plague : OdeResult) : result num :=
  peak_infected <- peak_infected_plague sol_plague ;;
  Ok (mul peak_infected (lit 0.1)).
Definition deaths_peak_covid (sol_covid : OdeResult) : result num :=
  peak_infected <- peak_infected_covid sol_covid ;;
  Ok (mul peak_infected (lit 0.014)).

(** ** Printing *)

Context `{Format num}.

Local Open Scope string_scope.

Definition newline : string := String "010"%char EmptyString.

(** [print(s)] appends [s] and a newline to standard output. *)
Definition print (s : string) (stdout : string) : string :=
  stdout ++ s ++ newline.

(** The two blocks, in the order of the [print] calls; the second header is
    printed as ["\nCOVID-19 Final Results:"]. *)
Definition print_results
    (total_infected_plague deaths_plague peak_day_plague
     peak_infected_plague deaths_peak_plague
     total_infected_covid deaths_covid peak_day_covid
     peak_infected_covid deaths_peak_covid : num)
    (stdout : string) : string :=
  let stdout := print "Bubonic Plague Final Results:" stdout in
  let stdout :=
    print ("Total Infected: " ++ fmt0 total_infected_plague) stdout in
  let stdout :=
    print ("Total Deaths (10% fatality): " ++ fmt0 deaths_plague) stdout in
  let stdout := print ("Peak Infection Day: " ++ fmt0 peak_day_plague) stdout in
  let stdout := print ("Peak Infected: " ++ fmt0 peak_infected_plague) stdout in
  let stdout := print ("Deaths at Peak: " ++ fmt0 deaths_peak_plague) stdout in
  let stdout := print (newline ++ "COVID-19 Final Results:") stdout in
  let stdout :=
    print ("Total Infected: " ++ fmt0 total_infected_covid) stdout in
  let stdout :=
    print ("Total Deaths (1.4% fatality): " ++ fmt0 deaths_covid) stdout in
  let stdout := print ("Peak Infection Day: " ++ fmt0 peak_day_covid) stdout in
  let stdout := print ("Peak Infected: " ++ fmt0 peak_infected_covid) stdout in
  let stdout := print ("Deaths at Peak: " ++ fmt0 deaths_peak_covid) stdout in
  print "" stdout.

(** ** The script

    Statement by statement; the result is what the run wrote to standard
    output, or the exception that ended it.  Every statistic is computed
    before the first [print], so a run that raises prints nothing. *)
Definition main (solve_ivp : solver) (tight_layout : layout)
  : result string :=
  sol_plague <- solve_ivp sir_model t_span [S0; I0; R0]
                  (beta_plague, gamma_plague) t_eval ;;
  sol_covid <- solve_ivp sir_model t_span [S0; I0; R0]
                 (beta_covid, gamma_covid) t_eval ;;
  plotting tight_layout sol_plague sol_covid ;;;
  S_final_plague sol_plague ;;;
  I_final_plague sol_plague ;;;
  R_final_plague sol_plague ;;;
  S_final_covid sol_covid ;;;
  I_final_covid sol_covid ;;;
  R_final_covid sol_covid ;;;
  total_infected_p <- total_infected_plague sol_plague ;;
  total_infected_c <- total_infected_covid sol_covid ;;
  deaths_p <- deaths_plague sol_plague ;;
  deaths_c <- deaths_covid sol_covid ;;
  peak_day_p <- peak_day_plague sol_plague ;;
  peak_day_c <- peak_day_covid sol_covid ;;
  peak_infected_p <- peak_infected_plague sol_plague ;;
  peak_infected_c <- peak_infected_covid sol_covid ;;
  deaths_peak_p <- deaths_peak_plague sol_plague ;;
  deaths_peak_c <- deaths_peak_covid sol_covid ;;
  Ok (print_results total_infected_p deaths_p peak_day_p peak_infected_p
        deaths_peak_p total_infected_c deaths_c peak_day_c peak_infected_c
        deaths_peak_c "").

End Script.

Arguments OdeResult num : clear implicits.
Arguments solver num : clear implicits.
Arguments curve num : clear implicits.
Arguments layout num : clear implicits.

(* ================================================================== *)
(** * Formatting binary64 values *)
(* ================================================================== *)

Local Open Scope string_scope.

Definition sign_str (s : bool) : string := if s then "-" else "".

(** The line feed character, as a string. *)
Abbreviation LF := (String "010"%char EmptyString).

(** The decimal digits of a natural number. *)
Definition decimal (n : BinNums.N) : string :=
  NilEmpty.string_of_uint (N.to_uint n).

(** [m * 2^e] rounded to the nearest integer, a tie going to the even
    neighbour: the conversion is correctly rounded from the exact binary
    value. *)
Definition round_half_even (m : positive) (e : Z) : BinNums.N :=
  match e with
  | Z0 => Npos m
  | Zpos p => (Npos m * 2 ^ Npos p)%N
  | Zneg p =>
      let d := (2 ^ Npos p)%N in
      let q := (Npos m / d)%N in
      let r := (Npos m mod d)%N in
      match (2 * r ?= d)%N with
      | Lt => q
      | Gt => (q + 1)%N
      | Eq => if N.even q then q else (q + 1)%N
      end
  end.

(** [format(x, ".0f")] for a binary64 [x], as CPython prints it: no
    fractional digits, the exact value rounded to the nearest integer; the
    sign is that of [x], also when the digits round to zero. *)
Definition fmt0_float (x : float) : string :=
  match Prim2SF x with
  | S754_zero s => sign_str s ++ "0"
  | S754_infinity s => sign_str s ++ "inf"
  | S754_nan => "nan"
  | S754_finite s m e => sign_str s ++ decimal (round_half_even m e)
  end.

#[global] Instance Format_float : Format float := {
  fmt0 := fmt0_float
}.

(** The absolute value of a finite binary64 number, as a rational. *)
Definition magnitude (m : positive) (e : Z) : Q :=
  match e with
  | Z0 => inject_Z (Zpos m)
  | Zpos p => inject_Z (Zpos m * 2 ^ Zpos p)
  | Zneg p => Qmake (Zpos m) (2 ^ p)
  end.

(** A binary64 solution whose solver broke down: the infected row holds a
    NaN from its second sample on. *)
Definition broken_solution : OdeResult float :=
  {| t := [0; 1; 2]%float;
     y := [[5; 3; 1]%float; [1; nan; nan]%float; [0; 0; 3]%float] |}.

(** ** Signs and finiteness of binary64 values *)


Definition fin (f : spec_float) : bool :=
  match f with
  | S754_zero _ | S754_finite _ _ _ => true
  | S754_infinity _ | S754_nan => false
  end.

(** [x] is neither an infinity nor a NaN. *)
Definition finite (x : float) : bool := fin (Prim2SF x).

(** ** A layout that fails on overflow

    The ticks of an axis are placed from the range of its data, the largest
    ordinate minus the smallest.  This layout accepts a panel when that
    difference is finite, as matplotlib does not once it is infinite. *)
Definition largest (v : float) (vs : list float) : float :=
  fold_left (fun a b => if PrimFloat.leb a b then b else a) vs v.
Definition smallest (v : float) (vs : list float) : float :=
  fold_left (fun a b => if PrimFloat.leb b a then b else a) vs v.

Definition range_finite (cs : list (curve float)) : bool :=
  match List.concat (map snd cs) with
  | [] => true
  | v :: vs => finite (PrimFloat.sub (largest v vs) (smallest v vs))
  end.

Definition overflow_layout : layout float :=
  fun left right => range_finite left && range_finite right.

(* ================================================================== *)
(** * Specification vocabulary *)
(* ================================================================== *)

(** The laws of [<=] the peak statistics rely on.  They hold of the reals
    and of binary64; comparisons with a NaN are all false, so totality is
    asked of the other values only. *)
Class ScalarOrder (num : Type) `{Scalar num} : Prop := {
  leb_total : forall a b : num,
    isnan a = false -> isnan b = false -> leb a b = false -> leb b a = true;
  leb_trans : forall a b c : num,
    leb a b = true -> leb b c = true -> leb a c = true
}.

Section Vocabulary.

Context {num : Type} `{Scalar num}.

(** [v] is the value at index [i] of [a], no element of [a] is greater, and
    every element before [i] is strictly smaller: [i] is the first index at
    which [a] attains its maximum. *)
Definition first_max (a : list num) (i : nat) (v : num) : Prop :=
  nth_error a i = Some v /\
  (forall z, In z a -> leb z v = true) /\
  (forall j z, (j < i)%nat -> nth_error a j = Some z -> leb v z = false).

(** No sample is a NaN. *)
Definition no_nan (a : list num) : bool := forallb (fun x => negb (isnan x)) a.

(** What [solve_ivp] returns for a three-component system: [y] has three
    rows, each as long as [t]; [shape_ok] asks moreover for at least one
    sample. *)
Definition shape_ok (sol : OdeResult num) : bool :=
  match y sol with
  | [S_; I_; R_] =>
      let n := List.length (t sol) in
      negb (Nat.eqb n 0) && Nat.eqb (List.length S_) n
      && Nat.eqb (List.length I_) n && Nat.eqb (List.length R_) n
  | _ => false
  end.



(** ** A sample solution

    A solution of the shape [solve_ivp] returns on [t_eval]: 160 samples of
    an epidemic that peaks at sample 70 and is over at the end, with
    [S + I + R = N] at every sample. *)
Definition sample_S (k : Z) : Z := 728999 - 4300 * k.
Definition sample_I (k : Z) : Z :=
  1 + (if (k <=? 70)%Z then 3000 * k else Z.max 0 (3000 * (140 - k))).
Definition sample_R (k : Z) : Z := N - sample_S k - sample_I k.

Definition sample_row (f : Z -> Z) : list num :=
  map (fun k => fromZ (f (Z.of_nat k))) (seq 0 160).

Definition sample_solution : OdeResult num :=
  {| t := t_eval;
     y := [sample_row sample_S; sample_row sample_I; sample_row sample_R] |}.

(** A solver that answers every call with the sample solution. *)
Definition sample_solver : solver num :=
  fun _ _ _ _ _ => Ok sample_solution.



(** The sample solution with a recovered row that swings between [big] and
    [- big], and a solver that answers with it. *)
Definition sample_solution_R_wide (big : num) : OdeResult num :=
  {| t := t_eval;
     y := [sample_row sample_S; sample_row sample_I;
           map (fun k => if Nat.even k then big else neg big) (seq 0 160)] |}.

Definition sample_solver_R_wide (big : num) : solver num :=
  fun _ _ _ _ _ => Ok (sample_solution_R_wide big).

(** ** Vocabulary for the run as a whole *)

(** What the script needs of a solution to get through: rows 0, 1 and 2 of
    [y] exist and are as long as [t], and there is at least one sample. *)
Definition printable (sol : OdeResult num) : bool :=
  match y sol with
  | S_ :: I_ :: R_ :: _ =>
      let n := List.length (t sol) in
      negb (Nat.eqb n 0) && Nat.eqb (List.length S_) n
      && Nat.eqb (List.length I_) n && Nat.eqb (List.length R_) n
  | _ => false
  end.

(** The dashed curve of a panel, [sol.y[1] * ratio]. *)
Definition deaths_curve (sol : OdeResult num) (ratio : num)
  : result (list num) :=
  y1 <- getitem (y sol) 1 ;; Ok (map (fun v => mul v ratio) y1).

(** A solver that answers the plague call (recognised by its first
    parameter, given by [is_plague]) with one solution and every other call
    with another. *)
Definition two_answers (is_plague : num -> bool)
    (sol_plague sol_covid : OdeResult num) : solver num :=
  fun _ _ _ args _ =>
    if is_plague (fst args) then Ok sol_plague else Ok sol_covid.

(** [c] returns, or raises an exception that [allowed] admits. *)
Definition raises_only {A : Type} (allowed : exn -> bool) (c : result A)
  : Prop :=
  match c with
  | Ok _ => True
  | Raise e => allowed e = true
  end.

(** The exceptions of indexing and of mismatched shapes. *)
Definition index_or_value (e : exn) : bool :=
  match e with
  | IndexError | ValueError => true
  | ZeroDivisionError => false
  end.

(** A solution with three rows and no sample at all. *)
Definition no_samples : OdeResult num := {| t := []; y := [[]; []; []] |}.

(** A solution whose susceptible row misses a sample. *)
Definition short_row : OdeResult num :=
  {| t := [fromZ 0; fromZ 1];
     y := [[fromZ 5]; [fromZ 1; fromZ 2]; [fromZ 0; fromZ 3]] |}.

(** A layout that accepts every figure. *)
Definition accept_all : layout num := fun _ _ => true.

(** What the figure needs of a solution: rows 0, 1 and 2 of [y] exist and
    are as long as [t] (possibly empty). *)
Definition drawable (sol : OdeResult num) : bool :=
  match y sol with
  | S_ :: I_ :: R_ :: _ =>
      let n := List.length (t sol) in
      Nat.eqb (List.length S_) n && Nat.eqb (List.length I_) n
      && Nat.eqb (List.length R_) n
  | _ => false
  end.

End Vocabulary.

(* ================================================================== *)
(** * The exact model: solutions of the differential equations *)
(* ================================================================== *)

(** [S_], [I_], [R_] solve the SIR equations on [[0, T]]: at every time of
    the interval the derivative of each component is the one [sir_model]
    returns at the current state. *)
Definition sir_solution (beta gamma T : R) (S_ I_ R_ : R -> R) : Prop :=
  forall t : R, (0 <= t <= T)%R ->
    exists dSdt dIdt dRdt : R,
      sir_model t [S_ t; I_ t; R_ t] beta gamma = Ok [dSdt; dIdt; dRdt] /\
      derivable_pt_lim S_ t dSdt /\
      derivable_pt_lim I_ t dIdt /\
      derivable_pt_lim R_ t dRdt.


(** Another closed-form solution, with the initial state of the script and
    no recovery ([gamma = 0]): the infected follow the logistic curve from 1
    towards [N]. *)
Definition logistic_I (beta t : R) : R :=
  (IZR N / (1 + (IZR N - 1) * exp (- beta * t)))%R.
Definition logistic_S (beta t : R) : R := (IZR N - logistic_I beta t)%R.
Definition logistic_R (t : R) : R := 0.

(** A small solution over the reals: three samples. *)
Definition three_samples : OdeResult R :=
  {| t := [0; 1; 2]%R;
     y := [[5; 3; 1]%R; [1; 3; 2]%R; [0; 0; 3]%R] |}.

(* ================================================================== *)
(** * Properties of [sir_model] *)
(* ================================================================== *)

(** The literals of the script, in binary64: the values Python reads. *)
Example float_literals :
  (lit 0.3 : float) = 0x1.3333333333333p-2%float /\
  (lit 0.1 : float) = 0x1.999999999999ap-4%float /\
  (lit 0.5 : float) = 0x1p-1%float /\
  (lit 0.014 : float) = 0x1.cac083126e979p-7%float /\
  (fromZ N : float) = 729000%float.
Proof. repeat split; vm_compute; reflexivity. Qed.

Lemma fromZ_R (n : Z) : fromZ (num := R) n = IZR n.
Proof.
  unfold fromZ; simpl. unfold Q2R; simpl. rewrite Rinv_1. apply Rmult_1_r.
Qed.

Lemma sir_model_eq {num : Type} `{Scalar num} (t S_ I_ R_ beta gamma : num) :
  sir_model t [S_; I_; R_] beta gamma =
  Ok [ div (mul (mul (neg beta) S_) I_) (fromZ 729000);
       sub (div (mul (mul beta S_) I_) (fromZ 729000)) (mul gamma I_);
       mul gamma I_ ].
Proof. reflexivity. Qed.

(** C1. On a state [(S, I, R)] the derivative function returns the vector
    [(-beta*S*I/N, beta*S*I/N - gamma*I, gamma*I)] with [N = 729000],
    evaluated with the operations of the scalar type in the order Python
    evaluates them; the result does not depend on the time argument (and,
    being a function, has no effect); in exact arithmetic the first
    component is the opposite of the infection term of the second. *)
Theorem sir_model_returns :
  (forall (num : Type) (Sc : Scalar num) (t S_ I_ R_ beta gamma : num),
      sir_model t [S_; I_; R_] beta gamma =
      Ok [ div (mul (mul (neg beta) S_) I_) (fromZ 729000);
           sub (div (mul (mul beta S_) I_) (fromZ 729000)) (mul gamma I_);
           mul gamma I_ ]) /\
  (forall (num : Type) (Sc : Scalar num) (t t' : num) (y : list num)
          (beta gamma : num),
      sir_model t y beta gamma = sir_model t' y beta gamma) /\
  (forall t S_ I_ R_ beta gamma : R,
      sir_model t [S_; I_; R_] beta gamma =
      Ok [ - (beta * S_ * I_ / 729000);
           beta * S_ * I_ / 729000 - gamma * I_;
           gamma * I_ ]%R).
Proof.
  split; [| split].
  - intros. apply sir_model_eq.
  - intros. reflexivity.
  - intros. rewrite sir_model_eq. rewrite fromZ_R. simpl.
    do 2 f_equal. field.
Qed.

Local Open Scope R_scope.


(** What [sir_model] returns on a state, read back from its result. *)
Lemma sir_model_inv (t S_ I_ R_ beta gamma dSdt dIdt dRdt : R) :
  sir_model t [S_; I_; R_] beta gamma = Ok [dSdt; dIdt; dRdt] ->
  (dSdt = - (beta * S_ * I_ / 729000) /\
   dIdt = beta * S_ * I_ / 729000 - gamma * I_ /\
   dRdt = gamma * I_)%R.
Proof.
  rewrite sir_model_eq, fromZ_R. simpl. intros E.
  injection E as <- <- <-. repeat split. field.
Qed.

(** The derivatives of the three components of a solution. *)
Lemma solution_derivatives (beta gamma T : R) (S_ I_ R_ : R -> R) :
  sir_solution beta gamma T S_ I_ R_ ->
  forall c : R, 0 <= c <= T ->
    derivable_pt_lim S_ c (- (beta * S_ c * I_ c / 729000)) /\
    derivable_pt_lim I_ c (beta * S_ c * I_ c / 729000 - gamma * I_ c) /\
    derivable_pt_lim R_ c (gamma * I_ c).
Proof.
  intros Hsol c Hc.
  destruct (Hsol c Hc) as (dS & dI & dR & Hm & HS & HI & HR).
  apply sir_model_inv in Hm. destruct Hm as (-> & -> & ->). auto.
Qed.

(** The derivative of the total population along a solution is zero. *)
Lemma total_derivative_zero (beta gamma T : R) (S_ I_ R_ : R -> R) :
  sir_solution beta gamma T S_ I_ R_ ->
  forall c : R, (0 <= c <= T)%R ->
    derivable_pt_lim (fun x => S_ x + I_ x + R_ x)%R c 0.
Proof.
  intros Hsol c Hc.
  destruct (solution_derivatives _ _ _ _ _ _ Hsol c Hc) as (HS & HI & HR).
  replace 0%R with
    (- (beta * S_ c * I_ c / 729000)
     + (beta * S_ c * I_ c / 729000 - gamma * I_ c) + gamma * I_ c)%R by field.
  change (fun x => S_ x + I_ x + R_ x)%R with (S_ + I_ + R_)%F.
  apply derivable_pt_lim_plus; [apply derivable_pt_lim_plus |]; assumption.
Qed.

(** A function whose derivative is at most zero on an interval does not
    increase there. *)
Lemma nonincreasing_on (f f' : R -> R) (a b : R) :
  (forall c, a <= c <= b -> derivable_pt_lim f c (f' c)) ->
  (forall c, a <= c <= b -> f' c <= 0) ->
  forall s t, a <= s -> s <= t -> t <= b -> f t <= f s.
Proof.
  intros Hd Hneg s t Has Hst Htb.
  destruct (Rle_lt_or_eq_dec s t Hst) as [Hlt | <-]; [| lra].
  destruct (MVT_cor2 f f' s t Hlt) as (c & Hc & Hin).
  - intros c Hc. apply Hd. lra.
  - assert (f' c <= 0) by (apply Hneg; lra).
    assert (f' c * (t - s) <= 0); [| lra].
    replace 0 with (0 * (t - s)) by ring.
    apply Rmult_le_compat_r; lra.
Qed.

(** A function whose derivative vanishes on an interval is constant
    there. *)
Lemma constant_on (f : R -> R) (a b : R) :
  (forall c, a <= c <= b -> derivable_pt_lim f c 0) ->
  forall t, a <= t <= b -> f t = f a.
Proof.
  intros Hd t [Hat Htb].
  destruct (Rle_lt_or_eq_dec a t Hat) as [Hlt | <-]; [| reflexivity].
  destruct (MVT_cor2 f (fun _ => 0) a t Hlt) as (c & Hc & _).
  - intros c Hc. apply Hd. lra.
  - lra.
Qed.

(** The total population along a solution. *)
Lemma solution_total (beta gamma T : R) (S_ I_ R_ : R -> R) :
  sir_solution beta gamma T S_ I_ R_ ->
  forall t : R, 0 <= t <= T -> S_ t + I_ t + R_ t = S_ 0 + I_ 0 + R_ 0.
Proof.
  intros Hsol t Ht.
  apply (constant_on (fun x => S_ x + I_ x + R_ x) 0 T); [| exact Ht].
  intros c Hc. apply (total_derivative_zero beta gamma T _ _ _ Hsol c Hc).
Qed.

(** ** The closed-form solutions *)





Lemma logistic_denominator_pos (beta t : R) :
  0 < 1 + (IZR N - 1) * exp (- beta * t).
Proof.
  pose proof (exp_pos (- beta * t)) as He.
  assert (0 <= (IZR N - 1) * exp (- beta * t)); [| lra].
  apply Rmult_le_pos; [unfold N; lra | lra].
Qed.

Lemma logistic_I_derivative (beta t : R) :
  derivable_pt_lim (logistic_I beta) t
    (beta * logistic_S beta t * logistic_I beta t / 729000).
Proof.
  pose proof (logistic_denominator_pos beta t) as Hd.
  set (den := fun x : R => 1 + (IZR N - 1) * exp (- beta * x)).
  assert (Hden : derivable_pt_lim den t
                   (0 + (IZR N - 1) * (exp (- beta * t) * (- beta * 1)))).
  { change den with
      (fct_cte 1
       + mult_real_fct (IZR N - 1) (comp exp (mult_real_fct (- beta) id)))%F.
    apply derivable_pt_lim_plus; [apply derivable_pt_lim_const |].
    apply derivable_pt_lim_scal.
    apply derivable_pt_lim_comp.
    - apply derivable_pt_lim_scal, derivable_pt_lim_id.
    - apply derivable_pt_lim_exp. }
  pose proof (derivable_pt_lim_div (fct_cte (IZR N)) den t _ _
                (derivable_pt_lim_const (IZR N) t) Hden
                ltac:(unfold den; lra)) as H.
  unfold logistic_S, logistic_I.
  change (fun t0 : R => IZR N / (1 + (IZR N - 1) * exp (- beta * t0)))
    with (fct_cte (IZR N) / den)%F.
  replace (beta * (IZR N - IZR N / (1 + (IZR N - 1) * exp (- beta * t)))
           * (IZR N / (1 + (IZR N - 1) * exp (- beta * t))) / 729000)
    with ((0 * den t
           - (0 + (IZR N - 1) * (exp (- beta * t) * (- beta * 1)))
             * fct_cte (IZR N) t) / (den t)²).
  - exact H.
  - unfold den, fct_cte, Rsqr, N in *. field. lra.
Qed.

(** The logistic solution solves the equations with [gamma = 0]. *)
Lemma logistic_solution (beta T : R) :
  sir_solution beta 0 T (logistic_S beta) (logistic_I beta) logistic_R.
Proof.
  intros t _. rewrite sir_model_eq, fromZ_R. simpl.
  do 3 eexists. split; [reflexivity |].
  pose proof (logistic_I_derivative beta t) as HI.
  split; [| split].
  - unfold logistic_S at 1.
    replace (- beta * logistic_S beta t * logistic_I beta t / 729000)
      with (0 - beta * logistic_S beta t * logistic_I beta t / 729000)
      by (unfold Rdiv; ring).
    change (fun t0 : R => IZR N - logistic_I beta t0)
      with (fct_cte (IZR N) - logistic_I beta)%F.
    apply derivable_pt_lim_minus; [apply derivable_pt_lim_const | exact HI].
  - replace (beta * logistic_S beta t * logistic_I beta t / 729000
             - 0 * logistic_I beta t)
      with (beta * logistic_S beta t * logistic_I beta t / 729000) by ring.
    exact HI.
  - replace (0 * logistic_I beta t) with 0 by ring.
    apply derivable_pt_lim_const.
Qed.

(** It starts from the initial state of the script. *)
Lemma logistic_starts (beta : R) :
  logistic_S beta 0 = IZR S0 /\ logistic_I beta 0 = IZR I0 /\
  logistic_R 0 = IZR R0.
Proof.
  assert (HI : logistic_I beta 0 = 1).
  { unfold logistic_I. rewrite Rmult_0_r, exp_0. unfold N. field. }
  unfold logistic_S. rewrite HI. unfold logistic_R.
  change S0 with 728999%Z. change I0 with 1%Z. change R0 with 0%Z. unfold N.
  repeat split; lra.
Qed.




(** The signs of the first and third components on a non-negative state. *)
Lemma sir_model_signs (t S_ I_ R_ beta gamma : R) :
  0 <= S_ -> 0 <= I_ -> 0 <= beta -> 0 <= gamma ->
  exists dSdt dIdt dRdt : R,
    sir_model t [S_; I_; R_] beta gamma = Ok [dSdt; dIdt; dRdt] /\
    dSdt <= 0 /\ 0 <= dRdt.
Proof.
  intros HS HI Hb Hg.
  rewrite sir_model_eq, fromZ_R. simpl.
  do 3 eexists. split; [reflexivity |]. split.
  - assert (0 <= beta * S_ * I_) by
      (apply Rmult_le_pos; [apply Rmult_le_pos |]; lra).
    unfold Rdiv.
    replace (- beta * S_ * I_ * / 729000) with
      (- (beta * S_ * I_ * / 729000)) by ring.
    assert (0 <= beta * S_ * I_ * / 729000); [| lra].
    apply Rmult_le_pos; [assumption |].
    apply Rlt_le, Rinv_0_lt_compat. lra.
  - apply Rmult_le_pos; lra.
Qed.

(** A solution of [f' = a * f] with a continuous coefficient keeps the sign
    it starts with: [f * exp (- A)] is constant, for [A] a primitive of
    [a]. *)
Lemma linear_ode_sign (f a : R -> R) (T : R) :
  (forall c, 0 <= c <= T -> continuity_pt a c) ->
  (forall c, 0 <= c <= T -> derivable_pt_lim f c (a c * f c)) ->
  0 <= f 0 ->
  forall t, 0 <= t <= T -> 0 <= f t.
Proof.
  intros Ca Hf H0 t Ht.
  assert (hT : 0 <= T) by lra.
  set (A := primitive hT (FTC_P1 hT Ca)).
  assert (HA : forall c, 0 <= c <= T -> derivable_pt_lim A c (a c)).
  { intros c Hc. apply RiemannInt_P28. exact Hc. }
  assert (Hg : forall c, 0 <= c <= T ->
            derivable_pt_lim (fun x => f x * exp (- A x)) c 0).
  { intros c Hc.
    replace 0 with (a c * f c * exp (- A c) + f c * (exp (- A c) * - a c))
      by ring.
    change (fun x => f x * exp (- A x)) with (f * comp exp (- A))%F.
    apply (derivable_pt_lim_mult f (comp exp (- A)) c
             (a c * f c) (exp (- A c) * - a c)); [apply Hf, Hc |].
    apply (derivable_pt_lim_comp (- A)%F exp c (- a c) (exp (- A c))).
    - apply derivable_pt_lim_opp, HA, Hc.
    - apply derivable_pt_lim_exp. }
  pose proof (constant_on _ 0 T Hg t Ht) as E. simpl in E.
  pose proof (exp_pos (- A t)) as Ht'.
  pose proof (exp_pos (- A 0)) as H0'.
  assert (0 <= f 0 * exp (- A 0)) by (apply Rmult_le_pos; lra).
  destruct (Rle_or_lt 0 (f t)) as [Hle | Hlt]; [exact Hle |].
  exfalso. assert (f t * exp (- A t) < 0) by nra. lra.
Qed.

Lemma solution_continuous (beta gamma T : R) (S_ I_ R_ : R -> R) :
  sir_solution beta gamma T S_ I_ R_ ->
  forall c : R, 0 <= c <= T -> continuity_pt S_ c /\ continuity_pt I_ c.
Proof.
  intros Hsol c Hc.
  destruct (solution_derivatives _ _ _ _ _ _ Hsol c Hc) as (HS & HI & _).
  split; apply derivable_continuous_pt; eexists; eassumption.
Qed.

(** An exact solution that starts with non-negative susceptible and
    infected keeps them non-negative, whatever the parameters. *)
Lemma solution_nonnegative (beta gamma T : R) (S_ I_ R_ : R -> R) :
  sir_solution beta gamma T S_ I_ R_ ->
  0 <= S_ 0 -> 0 <= I_ 0 ->
  forall t, 0 <= t <= T -> 0 <= S_ t /\ 0 <= I_ t.
Proof.
  intros Hsol HS0 HI0 t Ht. split.
  - apply (linear_ode_sign S_
             (- mult_real_fct (beta / 729000) I_)%F T); try assumption.
    + intros c Hc. apply continuity_pt_opp, continuity_pt_scal.
      apply (solution_continuous _ _ _ _ _ _ Hsol c Hc).
    + intros c Hc.
      destruct (solution_derivatives _ _ _ _ _ _ Hsol c Hc) as (HS & _).
      replace ((- mult_real_fct (beta / 729000) I_)%F c * S_ c)
        with (- (beta * S_ c * I_ c / 729000));
        [exact HS | unfold opp_fct, mult_real_fct; field].
  - apply (linear_ode_sign I_
             (mult_real_fct (beta / 729000) S_ - fct_cte gamma)%F T);
      try assumption.
    + intros c Hc. apply continuity_pt_minus.
      * apply continuity_pt_scal.
        apply (solution_continuous _ _ _ _ _ _ Hsol c Hc).
      * apply continuity_pt_const. intros x x'. reflexivity.
    + intros c Hc.
      destruct (solution_derivatives _ _ _ _ _ _ Hsol c Hc) as (_ & HI & _).
      replace ((mult_real_fct (beta / 729000) S_ - fct_cte gamma)%F c * I_ c)
        with (beta * S_ c * I_ c / 729000 - gamma * I_ c);
        [exact HI | unfold minus_fct, mult_real_fct, fct_cte; field].
Qed.

(** Along an exact solution that starts non-negative, with non-negative
    parameters, the susceptible do not increase and the recovered do not
    decrease. *)
Lemma solution_monotone (beta gamma T : R) (S_ I_ R_ : R -> R) :
  0 <= beta -> 0 <= gamma ->
  sir_solution beta gamma T S_ I_ R_ ->
  0 <= S_ 0 -> 0 <= I_ 0 ->
  forall s t, 0 <= s -> s <= t -> t <= T -> S_ t <= S_ s /\ R_ s <= R_ t.
Proof.
  intros Hb Hg Hsol HS0 HI0 s t Hs Hst Ht.
  pose proof (solution_nonnegative _ _ _ _ _ _ Hsol HS0 HI0) as Hpos.
  pose proof (solution_derivatives _ _ _ _ _ _ Hsol) as Hd.
  split.
  - apply (nonincreasing_on S_ (fun c => - (beta * S_ c * I_ c / 729000)) 0 T);
      try assumption.
    + intros c Hc. apply (Hd c Hc).
    + intros c Hc. destruct (Hpos c Hc) as [HS HI].
      destruct (sir_model_signs 0 _ _ 0 _ _ HS HI Hb Hg)
        as (dS & dI & dR & Hm & Hle & _).
      apply sir_model_inv in Hm. destruct Hm as (<- & _). exact Hle.
  - assert (- R_ t <= - R_ s); [| lra].
    apply (nonincreasing_on (fun x => - R_ x) (fun c => - (gamma * I_ c)) 0 T);
      try assumption.
    + intros c Hc. change (fun x => - R_ x) with (- R_)%F.
      apply derivable_pt_lim_opp. apply (Hd c Hc).
    + intros c Hc. destruct (Hpos c Hc) as [_ HI].
      assert (0 <= gamma * I_ c) by (apply Rmult_le_pos; lra). lra.
Qed.


Local Close Scope R_scope.

(** ** The signs in binary64

    Rounding keeps the sign: a rounded non-negative mantissa is not
    negative, so a product or a quotient is a zero, or carries the exclusive
    or of the signs of its operands. *)













Local Open Scope R_scope.




Local Close Scope R_scope.

(* ================================================================== *)
(** * Arrays *)
(* ================================================================== *)

Lemma getitem_nth_error {A : Type} (a : list A) (i : nat) (x : A) :
  nth_error a i = Some x -> getitem a (Z.of_nat i) = Ok x.
Proof.
  intros E. unfold getitem.
  assert (i < List.length a)%nat by (apply nth_error_Some; congruence).
  destruct (Z.ltb_spec (Z.of_nat i) 0); [lia |].
  destruct (Z.leb_spec 0 (Z.of_nat i)); [| lia].
  destruct (Z.ltb_spec (Z.of_nat i) (Z.of_nat (List.length a))); [| lia].
  simpl. rewrite Nat2Z.id, E. reflexivity.
Qed.

Lemma getitem_in_range {A : Type} (a : list A) (i : Z) :
  (0 <= i < Z.of_nat (List.length a))%Z ->
  exists x, getitem a i = Ok x /\ nth_error a (Z.to_nat i) = Some x.
Proof.
  intros Hi.
  destruct (nth_error a (Z.to_nat i)) as [x |] eqn:E.
  - exists x. split; [| reflexivity].
    rewrite <- (Z2Nat.id i) by lia. apply getitem_nth_error, E.
  - apply nth_error_None in E. lia.
Qed.

(** Index [-1] is the last index. *)
Lemma getitem_minus_one {A : Type} (a : list A) :
  getitem a (-1) = getitem a (Z.of_nat (List.length a) - 1).
Proof.
  unfold getitem. simpl (-1 <? 0)%Z. cbv iota.
  destruct (Z.ltb_spec (Z.of_nat (List.length a) - 1) 0) as [Hn | Hn].
  - replace (Z.of_nat (List.length a) - 1 + Z.of_nat (List.length a))%Z
      with (-1 + Z.of_nat (List.length a))%Z by lia.
    reflexivity.
  - replace (-1 + Z.of_nat (List.length a))%Z
      with (Z.of_nat (List.length a) - 1)%Z by lia.
    reflexivity.
Qed.

(* ================================================================== *)
(** * [np.argmax] *)
(* ================================================================== *)

Section Argmax.

Context {num : Type} `{ScalarOrder num}.

Lemma leb_refl (a : num) : isnan a = false -> leb a a = true.
Proof.
  intros Ha. pose proof (leb_total a a Ha Ha) as Ht.
  destruct (leb a a); [reflexivity | apply Ht; reflexivity].
Qed.

Lemma no_nan_In (a : list num) (x : num) :
  no_nan a = true -> In x a -> isnan x = false.
Proof.
  unfold no_nan. rewrite forallb_forall. intros Ha Hx.
  apply negb_true_iff. apply Ha, Hx.
Qed.

(** The scan keeps the first maximum of what it has read: [pre] is the part
    already read, [mp] its first maximum, found at [max_ind]. *)
Lemma argmax_from_first_max (a pre : list num) (mp : num) (max_ind : nat) :
  no_nan (pre ++ a) = true ->
  first_max pre max_ind mp ->
  exists v,
    first_max (pre ++ a) (argmax_from mp max_ind (List.length pre) a) v.
Proof.
  revert pre mp max_ind.
  induction a as [| x a IH]; intros pre mp max_ind Hnan Hmax.
  - simpl. rewrite app_nil_r. exists mp. exact Hmax.
  - destruct Hmax as (Hnth & Hge & Hlt).
    assert (Hxnan : isnan x = false)
      by (apply (no_nan_In _ _ Hnan), in_or_app; right; left; reflexivity).
    assert (Hmpnan : isnan mp = false).
    { apply (no_nan_In _ _ Hnan), in_or_app. left.
      eapply nth_error_In, Hnth. }
    assert (Hpre : forall z, In z pre -> isnan z = false).
    { intros z Hz. apply (no_nan_In _ _ Hnan), in_or_app. left. exact Hz. }
    assert (Hlen : List.length (pre ++ [x]) = S (List.length pre))
      by (rewrite length_app; simpl; lia).
    replace (pre ++ x :: a)%list with ((pre ++ [x]) ++ a)%list in *
      by (rewrite <- app_assoc; reflexivity).
    simpl. destruct (leb x mp) eqn:Hx; simpl.
    + rewrite <- Hlen. apply IH; [exact Hnan |].
      split; [| split].
      * rewrite nth_error_app1; [exact Hnth |].
        apply nth_error_Some. congruence.
      * intros z Hz. apply in_app_or in Hz. destruct Hz as [Hz | [<- | []]].
        -- apply Hge, Hz.
        -- exact Hx.
      * intros j z Hj Hz. apply (Hlt j z Hj).
        rewrite nth_error_app1 in Hz; [exact Hz |].
        assert (max_ind < List.length pre)%nat
          by (apply nth_error_Some; congruence).
        lia.
    + rewrite Hxnan. rewrite <- Hlen. apply IH; [exact Hnan |].
      assert (Hmx : leb mp x = true) by (apply leb_total; assumption).
      split; [| split].
      * rewrite nth_error_app2 by lia. rewrite Nat.sub_diag. reflexivity.
      * intros z Hz. apply in_app_or in Hz. destruct Hz as [Hz | [<- | []]].
        -- apply leb_trans with mp; [apply Hge, Hz | exact Hmx].
        -- apply leb_refl, Hxnan.
      * intros j z Hj Hz.
        rewrite nth_error_app1 in Hz by exact Hj.
        destruct (leb x z) eqn:Hxz; [| reflexivity].
        rewrite <- Hx. symmetry.
        apply leb_trans with z; [exact Hxz |].
        apply Hge. eapply nth_error_In, Hz.
Qed.

(** On a non-empty sequence without NaN, [np.argmax] returns the first index
    of the maximum. *)
Lemma argmax_first_max (a : list num) :
  a <> [] -> no_nan a = true ->
  exists (i : nat) (v : num), argmax a = Ok (Z.of_nat i) /\ first_max a i v.
Proof.
  destruct a as [| x a]; [congruence |]. intros _ Hnan.
  assert (Hx : isnan x = false)
    by (apply (no_nan_In _ _ Hnan); left; reflexivity).
  destruct (argmax_from_first_max a [x] x 0 Hnan) as (v & Hv).
  - split; [reflexivity | split].
    + intros z [<- | []]. apply leb_refl, Hx.
    + intros j z Hj. lia.
  - simpl in Hv. exists (argmax_from x 0 1 a), v. split; [| exact Hv].
    unfold argmax. rewrite Hx. reflexivity.
Qed.

End Argmax.

Section ArgmaxBounds.

Context {num : Type} `{Scalar num}.

(** The index the scan returns is one the scan has seen, whatever the
    values (NaN included). *)
Lemma argmax_from_bound (a : list num) (mp : num) (max_ind i : nat) :
  (max_ind < i)%nat ->
  (argmax_from mp max_ind i a < i + List.length a)%nat.
Proof.
  revert mp max_ind i.
  induction a as [| x a IH]; intros mp max_ind i Hi; simpl.
  - lia.
  - destruct (negb (leb x mp)).
    + destruct (isnan x); [lia |].
      specialize (IH x i (S i)). lia.
    + specialize (IH mp max_ind (S i)). lia.
Qed.

Lemma argmax_in_bounds (a : list num) :
  a <> [] ->
  exists i : Z, argmax a = Ok i /\ (0 <= i < Z.of_nat (List.length a))%Z.
Proof.
  destruct a as [| x a]; [congruence |]. intros _.
  unfold argmax. destruct (isnan x).
  - exists 0%Z. split; [reflexivity |]. simpl List.length. lia.
  - eexists. split; [reflexivity |].
    pose proof (argmax_from_bound a x 0 1). simpl List.length. lia.
Qed.

End ArgmaxBounds.

(* ================================================================== *)
(** * The order laws hold of the reals and of binary64 *)
(* ================================================================== *)

Lemma Rleb_true (x y : R) : Rleb x y = true <-> (x <= y)%R.
Proof.
  unfold Rleb. destruct (Rle_dec x y); split; intros; try easy; lra.
Qed.

#[global] Instance ScalarOrder_R : ScalarOrder R.
Proof.
  split; simpl.
  - intros a b _ _ Hab. apply Rleb_true.
    destruct (Rle_dec a b) as [Hle | Hnle].
    + apply Rleb_true in Hle. congruence.
    + lra.
  - intros a b c Hab Hbc. apply Rleb_true in Hab, Hbc. apply Rleb_true. lra.
Qed.

Ltac sf_cases :=
  repeat match goal with
  | |- context [Z.compare ?x ?y] => destruct (Z.compare_spec x y)
  | |- context [Pos.compare_cont Eq ?x ?y] =>
      change (Pos.compare_cont Eq x y) with (Pos.compare x y);
      destruct (Pos.compare_spec x y)
  end.

Lemma SFleb_trans (a b c : spec_float) :
  SFleb a b = true -> SFleb b c = true -> SFleb a c = true.
Proof.
  unfold SFleb, SFcompare.
  destruct a as [[]|[]| |[] m1 e1], b as [[]|[]| |[] m2 e2],
    c as [[]|[]| |[] m3 e3]; simpl; try easy;
  sf_cases; simpl; intros; subst; try easy; try lia.
Qed.

Lemma SFleb_total (a b : spec_float) :
  a <> S754_nan -> b <> S754_nan -> SFleb a b = false -> SFleb b a = true.
Proof.
  unfold SFleb, SFcompare.
  destruct a as [[]|[]| |[] m1 e1], b as [[]|[]| |[] m2 e2]; simpl; try easy;
  sf_cases; simpl; intros; subst; try easy; try lia.
Qed.

(** [x != x] holds of NaN alone. *)
Lemma float_isnan_false (x : float) :
  isnan x = false -> Prim2SF x <> S754_nan.
Proof.
  simpl. rewrite negb_false_iff, eqb_spec. intros E Hn.
  rewrite Hn in E. discriminate.
Qed.

#[global] Instance ScalarOrder_float : ScalarOrder float.
Proof.
  split.
  - intros a b Ha Hb. simpl leb. rewrite !leb_spec.
    apply SFleb_total; apply float_isnan_false; assumption.
  - intros a b c. simpl. rewrite !leb_spec. apply SFleb_trans.
Qed.

(* ================================================================== *)
(** * Derived statistics *)
(* ================================================================== *)

Section Statistics.

Context {num : Type} `{Scalar num}.

Lemma getitem_row (sol : OdeResult num) (r : nat) (row : list num) :
  nth_error (y sol) r = Some row -> getitem (y sol) (Z.of_nat r) = Ok row.
Proof. apply getitem_nth_error. Qed.

(** With 160 samples the final values are those at index 159 of the row
    each statement reads. *)
Lemma final_values_at_last_sample (sol : OdeResult num) (S_ I_ R_ : list num) :
  y sol = [S_; I_; R_] ->
  List.length S_ = 160%nat -> List.length I_ = 160%nat ->
  List.length R_ = 160%nat ->
  S_final_plague sol = getitem S_ 159 /\
  I_final_plague sol = getitem I_ 159 /\
  R_final_plague sol = getitem I_ 159 /\
  S_final_covid sol = getitem S_ 159 /\
  I_final_covid sol = getitem I_ 159 /\
  R_final_covid sol = getitem R_ 159.
Proof.
  intros Hy HS HI HR.
  unfold S_final_plague, I_final_plague, R_final_plague,
    S_final_covid, I_final_covid, R_final_covid, getitem2.
  rewrite Hy.
  change (getitem [S_; I_; R_] 0) with (Ok S_).
  change (getitem [S_; I_; R_] 1) with (Ok I_).
  change (getitem [S_; I_; R_] 2) with (Ok R_).
  simpl bind. rewrite !getitem_minus_one, HS, HI, HR.
  repeat split; reflexivity.
Qed.

End Statistics.

(** C2. With 160 samples, [S_final], [I_final] and [R_final_covid] are the
    values at index 159 of the susceptible, infected and recovered rows;
    [R_final_plague] however is read from row 1, the infected row, like
    [I_final_plague].  On the sample solution, in binary64, the recovered
    value at the last sample is 683700, which is what [R_final_covid] reads,
    while [R_final_plague] is 1, the last infected value. *)
Theorem R_final_plague_reads_infected_row :
  (forall (num : Type) (sol : OdeResult num) (S_ I_ R_ : list num),
      y sol = [S_; I_; R_] ->
      List.length S_ = 160%nat -> List.length I_ = 160%nat ->
      List.length R_ = 160%nat ->
      S_final_plague sol = getitem S_ 159 /\
      I_final_plague sol = getitem I_ 159 /\
      R_final_plague sol = getitem I_ 159 /\
      S_final_covid sol = getitem S_ 159 /\
      I_final_covid sol = getitem I_ 159 /\
      R_final_covid sol = getitem R_ 159) /\
  (shape_ok (sample_solution : OdeResult float) = true /\
   getitem2 (y (sample_solution : OdeResult float)) 2 159 = Ok 683700%float /\
   R_final_covid (sample_solution : OdeResult float) = Ok 683700%float /\
   I_final_plague (sample_solution : OdeResult float) = Ok 1%float /\
   R_final_plague (sample_solution : OdeResult float) = Ok 1%float).
Proof.
  split.
  - intros num sol. apply final_values_at_last_sample.
  - repeat split; vm_compute; reflexivity.
Qed.

(** C3. For a solution whose infected series has no NaN and is as long as
    the sample times, the reported peak day is the sample time at the first
    index at which the infected series attains its maximum, and the
    reported peak infected is the infected value at that index; this holds
    of both scenarios. *)
Theorem peak_is_first_maximum
    (num : Type) (Sc : Scalar num) (So : ScalarOrder num)
    (sol : OdeResult num) (I_ : list num) :
  nth_error (y sol) 1 = Some I_ ->
  I_ <> [] ->
  List.length (t sol) = List.length I_ ->
  no_nan I_ = true ->
  exists (i : nat) (day v : num),
    first_max I_ i v /\
    nth_error (t sol) i = Some day /\
    peak_day_plague sol = Ok day /\
    peak_infected_plague sol = Ok v /\
    peak_day_covid sol = Ok day /\
    peak_infected_covid sol = Ok v.
Proof.
  intros Hrow Hne Hlen Hnan.
  destruct (argmax_first_max I_ Hne Hnan) as (i & v & Harg & Hmax).
  assert (Hi : (i < List.length (t sol))%nat).
  { rewrite Hlen. apply nth_error_Some. destruct Hmax as (E & _). congruence. }
  destruct (nth_error (t sol) i) as [day |] eqn:Hday;
    [| apply nth_error_None in Hday; lia].
  exists i, day, v.
  split; [exact Hmax |]. split; [exact Hday |].
  unfold peak_day_plague, peak_infected_plague,
    peak_day_covid, peak_infected_covid.
  pose proof (getitem_row sol 1 I_ Hrow) as Hr.
  change (Z.of_nat 1) with 1%Z in Hr.
  rewrite Hr. simpl bind. rewrite Harg. simpl bind.
  rewrite (getitem_nth_error _ _ _ Hday).
  rewrite (getitem_nth_error _ _ _ (proj1 Hmax)).
  repeat split; reflexivity.
Qed.

Lemma peak_is_first_maximum_witness :
  exists (i : nat) (day v : float),
    first_max (sample_row sample_I) i v /\
    nth_error (t (sample_solution : OdeResult float)) i = Some day /\
    peak_day_plague (sample_solution : OdeResult float) = Ok day /\
    peak_infected_plague (sample_solution : OdeResult float) = Ok v /\
    peak_day_covid (sample_solution : OdeResult float) = Ok day /\
    peak_infected_covid (sample_solution : OdeResult float) = Ok v.
Proof.
  apply (peak_is_first_maximum float Scalar_float ScalarOrder_float
           sample_solution (sample_row sample_I)).
  - reflexivity.
  - discriminate.
  - vm_compute. reflexivity.
  - vm_compute. reflexivity.
Defined.

(** C4. For each scenario the total infected is [N] minus the final
    susceptible value, the total deaths are the total infected times the
    fatality ratio (0.1 for the plague, 0.014 for COVID-19), and the deaths
    at peak are the peak infected times the same ratio. *)
Theorem totals_and_deaths
    (num : Type) (Sc : Scalar num) (sol_plague sol_covid : OdeResult num)
    (S_final_p peak_infected_p S_final_c peak_infected_c : num) :
  S_final_plague sol_plague = Ok S_final_p ->
  peak_infected_plague sol_plague = Ok peak_infected_p ->
  S_final_covid sol_covid = Ok S_final_c ->
  peak_infected_covid sol_covid = Ok peak_infected_c ->
  total_infected_plague sol_plague = Ok (sub (fromZ 729000) S_final_p) /\
  deaths_plague sol_plague =
    Ok (mul (sub (fromZ 729000) S_final_p) (lit 0.1)) /\
  deaths_peak_plague sol_plague = Ok (mul peak_infected_p (lit 0.1)) /\
  total_infected_covid sol_covid = Ok (sub (fromZ 729000) S_final_c) /\
  deaths_covid sol_covid =
    Ok (mul (sub (fromZ 729000) S_final_c) (lit 0.014)) /\
  deaths_peak_covid sol_covid = Ok (mul peak_infected_c (lit 0.014)).
Proof.
  intros HSp Hpp HSc Hpc.
  unfold deaths_plague, deaths_covid, total_infected_plague,
    total_infected_covid, deaths_peak_plague, deaths_peak_covid.
  rewrite HSp, Hpp, HSc, Hpc. repeat split; reflexivity.
Qed.

Lemma totals_and_deaths_witness :
  total_infected_plague (sample_solution : OdeResult float) =
    Ok (sub (fromZ 729000) 45299%float) /\
  deaths_plague (sample_solution : OdeResult float) =
    Ok (mul (sub (fromZ 729000) 45299%float) (lit 0.1)) /\
  deaths_peak_plague (sample_solution : OdeResult float) =
    Ok (mul 210001%float (lit 0.1)) /\
  total_infected_covid (sample_solution : OdeResult float) =
    Ok (sub (fromZ 729000) 45299%float) /\
  deaths_covid (sample_solution : OdeResult float) =
    Ok (mul (sub (fromZ 729000) 45299%float) (lit 0.014)) /\
  deaths_peak_covid (sample_solution : OdeResult float) =
    Ok (mul 210001%float (lit 0.014)).
Proof.
  apply (totals_and_deaths float Scalar_float sample_solution sample_solution).
  - vm_compute. reflexivity.
  - vm_compute. reflexivity.
  - vm_compute. reflexivity.
  - vm_compute. reflexivity.
Defined.

(** C10. No partial operation of the pipeline fails.  The divisor in
    [sir_model] is the constant [N = 729000], which is not zero: the
    function returns a vector on every state, for every scalar type, and
    never raises [ZeroDivisionError].  On a non-empty series [np.argmax]
    returns an index within bounds, so with 160 samples the index is
    between 0 and 159 and both the sample times and the infected series can
    be read at it. *)
Theorem no_partial_operation_fails :
  N <> 0%Z /\
  (forall (num : Type) (Sc : Scalar num) (t S_ I_ R_ beta gamma : num),
      exists dSdt dIdt dRdt : num,
        sir_model t [S_; I_; R_] beta gamma = Ok [dSdt; dIdt; dRdt]) /\
  (forall (num : Type) (Sc : Scalar num) (t : num) (y : list num)
          (beta gamma : num),
      sir_model t y beta gamma <> Raise ZeroDivisionError) /\
  (forall (num : Type) (Sc : Scalar num) (a : list num),
      a <> [] ->
      exists i : Z,
        argmax a = Ok i /\ (0 <= i < Z.of_nat (List.length a))%Z) /\
  (forall (num : Type) (Sc : Scalar num) (sol : OdeResult num)
          (I_ : list num),
      nth_error (y sol) 1 = Some I_ ->
      List.length I_ = 160%nat -> List.length (t sol) = 160%nat ->
      exists (i : Z) (day v : num),
        argmax I_ = Ok i /\ (0 <= i <= 159)%Z /\
        getitem (t sol) i = Ok day /\ getitem I_ i = Ok v /\
        peak_day_plague sol = Ok day /\ peak_infected_plague sol = Ok v /\
        peak_day_covid sol = Ok day /\ peak_infected_covid sol = Ok v).
Proof.
  split; [discriminate |]. split; [| split; [| split]].
  - intros. rewrite sir_model_eq. do 3 eexists. reflexivity.
  - intros num Sc t0 y0 beta gamma.
    destruct y0 as [| a [| b [| c [| d l]]]]; discriminate.
  - intros num Sc a. apply argmax_in_bounds.
  - intros num Sc sol I_ Hrow HI Ht.
    destruct (argmax_in_bounds I_) as (i & Harg & Hi).
    { intros ->. discriminate. }
    rewrite HI in Hi.
    destruct (getitem_in_range (t sol) i) as (day & Hday & _);
      [rewrite Ht; lia |].
    destruct (getitem_in_range I_ i) as (v & Hv & _); [rewrite HI; lia |].
    exists i, day, v.
    unfold peak_day_plague, peak_infected_plague,
      peak_day_covid, peak_infected_covid.
    pose proof (getitem_row sol 1 I_ Hrow) as Hr.
    change (Z.of_nat 1) with 1%Z in Hr.
    rewrite Hr. simpl bind. rewrite Harg. simpl bind. rewrite Hday, Hv.
    repeat split; try reflexivity; lia.
Qed.

Lemma no_partial_operation_fails_witness :
  exists (i : Z) (day v : float),
    argmax (sample_row sample_I) = Ok i /\ (0 <= i <= 159)%Z /\
    getitem (t (sample_solution : OdeResult float)) i = Ok day /\
    getitem (sample_row sample_I) i = Ok v /\
    peak_day_plague (sample_solution : OdeResult float) = Ok day /\
    peak_infected_plague (sample_solution : OdeResult float) = Ok v /\
    peak_day_covid (sample_solution : OdeResult float) = Ok day /\
    peak_infected_covid (sample_solution : OdeResult float) = Ok v.
Proof.
  apply (proj2 (proj2 (proj2 (proj2 no_partial_operation_fails)))
           float Scalar_float sample_solution (sample_row sample_I)).
  - reflexivity.
  - vm_compute. reflexivity.
  - vm_compute. reflexivity.
Defined.

(* ================================================================== *)
(** * The run of the script *)
(* ================================================================== *)

Section Run.

Context {num : Type} `{Scalar num}.

Lemma bind_Ok_inv {A B : Type} (c : result A) (k : A -> result B) (b : B) :
  bind c k = Ok b -> exists a, c = Ok a /\ k a = Ok b.
Proof.
  destruct c as [a | e]; simpl; [| discriminate].
  intros E. exists a. split; [reflexivity | exact E].
Qed.

Lemma rows_012 {A : Type} (r0 r1 r2 : A) (rest : list A) :
  getitem (r0 :: r1 :: r2 :: rest) 0 = Ok r0 /\
  getitem (r0 :: r1 :: r2 :: rest) 1 = Ok r1 /\
  getitem (r0 :: r1 :: r2 :: rest) 2 = Ok r2.
Proof.
  split; [| split].
  - apply (getitem_nth_error _ 0). reflexivity.
  - apply (getitem_nth_error _ 1). reflexivity.
  - apply (getitem_nth_error _ 2). reflexivity.
Qed.

Lemma shape_ok_inv (sol : OdeResult num) :
  shape_ok sol = true ->
  exists S_ I_ R_ : list num,
    y sol = [S_; I_; R_] /\
    List.length (t sol) <> 0%nat /\
    List.length S_ = List.length (t sol) /\
    List.length I_ = List.length (t sol) /\
    List.length R_ = List.length (t sol).
Proof.
  unfold shape_ok.
  destruct (y sol) as [| S_ [| I_ [| R_ [| r l]]]]; try discriminate.
  rewrite !andb_true_iff, negb_true_iff, Nat.eqb_neq, !Nat.eqb_eq.
  intros (((Hn & HS) & HI) & HR). exists S_, I_, R_. auto.
Qed.

Lemma plot_same_length (x ys : list num) :
  List.length ys = List.length x -> plot x ys = Ok (x, ys).
Proof. intros E. unfold plot. rewrite E, Nat.eqb_refl. reflexivity. Qed.

Lemma plot_Ok_inv (x ys : list num) (c : curve num) :
  plot x ys = Ok c -> List.length ys = List.length x /\ c = (x, ys).
Proof.
  unfold plot. destruct (Nat.eqb_spec (List.length x) (List.length ys));
    [| discriminate].
  intros E. injection E as <-. auto.
Qed.

(** The curves of a panel whose rows are as long as the sample times. *)
Lemma panel_rows (sol : OdeResult num) (ratio : num)
    (S_ I_ R_ : list num) (rest : list (list num)) :
  y sol = S_ :: I_ :: R_ :: rest ->
  List.length S_ = List.length (t sol) ->
  List.length I_ = List.length (t sol) ->
  List.length R_ = List.length (t sol) ->
  panel sol ratio =
  Ok [ (t sol, S_); (t sol, I_); (t sol, R_);
       (t sol, map (fun v => mul v ratio) I_) ].
Proof.
  intros Hy HS HI HR. unfold panel. rewrite Hy.
  destruct (rows_012 S_ I_ R_ rest) as (-> & -> & ->). simpl bind.
  rewrite (plot_same_length _ _ HS). simpl bind.
  rewrite (plot_same_length _ _ HI). simpl bind.
  rewrite (plot_same_length _ _ HR). simpl bind.
  rewrite plot_same_length; [reflexivity |].
  rewrite length_map. exact HI.
Qed.

(** A panel is drawn only when rows 0, 1 and 2 exist and are as long as the
    sample times. *)
Lemma panel_Ok_inv (sol : OdeResult num) (ratio : num)
    (cs : list (curve num)) :
  panel sol ratio = Ok cs ->
  exists (S_ I_ R_ : list num) (rest : list (list num)),
    y sol = S_ :: I_ :: R_ :: rest /\
    List.length S_ = List.length (t sol) /\
    List.length I_ = List.length (t sol) /\
    List.length R_ = List.length (t sol).
Proof.
  unfold panel.
  destruct (y sol) as [| S_ [| I_ [| R_ rest]]].
  - discriminate.
  - change (getitem [S_] 0) with (Ok S_). simpl bind.
    destruct (plot (t sol) S_); discriminate.
  - change (getitem [S_; I_] 0) with (Ok S_).
    change (getitem [S_; I_] 1) with (Ok I_). simpl bind.
    destruct (plot (t sol) S_); [| discriminate]. simpl bind.
    destruct (plot (t sol) I_); discriminate.
  - destruct (rows_012 S_ I_ R_ rest) as (-> & -> & ->). simpl bind.
    intros E.
    apply bind_Ok_inv in E. destruct E as (c0 & E0 & E).
    apply bind_Ok_inv in E. destruct E as (c1 & E1 & E).
    apply bind_Ok_inv in E. destruct E as (c2 & E2 & _).
    exists S_, I_, R_, rest.
    split; [reflexivity |].
    split; [exact (proj1 (plot_Ok_inv _ _ _ E0)) |].
    split; [exact (proj1 (plot_Ok_inv _ _ _ E1)) |
            exact (proj1 (plot_Ok_inv _ _ _ E2))].
Qed.

Lemma last_ok (a : list num) :
  List.length a <> 0%nat -> exists x, getitem a (-1) = Ok x.
Proof.
  intros Ha. rewrite getitem_minus_one.
  destruct (getitem_in_range a (Z.of_nat (List.length a) - 1)) as (x & Hx & _);
    [lia |].
  exists x. exact Hx.
Qed.

(** Every statistic of a well-shaped solution has a value. *)
Lemma statistics_ok (sol : OdeResult num) :
  shape_ok sol = true ->
  exists S_final I_final R_final peak_day peak_infected : num,
    getitem2 (y sol) 0 (-1) = Ok S_final /\
    getitem2 (y sol) 1 (-1) = Ok I_final /\
    getitem2 (y sol) 2 (-1) = Ok R_final /\
    peak_day_plague sol = Ok peak_day /\
    peak_infected_plague sol = Ok peak_infected.
Proof.
  intros Hs.
  destruct (shape_ok_inv sol Hs) as (S_ & I_ & R_ & Hy & Hn & HS & HI & HR).
  destruct (last_ok S_) as (s & Es); [congruence |].
  destruct (last_ok I_) as (i & Ei); [congruence |].
  destruct (last_ok R_) as (r & Er); [congruence |].
  destruct (argmax_in_bounds I_) as (k & Harg & Hk).
  { intros ->. simpl in HI. congruence. }
  destruct (getitem_in_range (t sol) k) as (day & Hday & _); [lia |].
  destruct (getitem_in_range I_ k) as (v & Hv & _); [lia |].
  exists s, i, r, day, v.
  unfold getitem2, peak_day_plague, peak_infected_plague. rewrite Hy.
  change (getitem [S_; I_; R_] 0) with (Ok S_).
  change (getitem [S_; I_; R_] 1) with (Ok I_).
  change (getitem [S_; I_; R_] 2) with (Ok R_).
  simpl bind. rewrite Harg. simpl bind.
  repeat split; assumption.
Qed.

Context `{Format num}.

Lemma string_app_assoc (a b c : string) :
  ((a ++ b) ++ c = a ++ (b ++ c))%string.
Proof. induction a as [| ch a IH]; simpl; [| rewrite IH]; reflexivity. Qed.

(** What the [print] calls write, character by character: every line ends
    with a line feed. *)
Lemma print_results_text (a1 a2 a3 a4 a5 b1 b2 b3 b4 b5 : num) :
  print_results a1 a2 a3 a4 a5 b1 b2 b3 b4 b5 "" =
  ("Bubonic Plague Final Results:" ++ LF ++
   "Total Infected: " ++ fmt0 a1 ++ LF ++
   "Total Deaths (10% fatality): " ++ fmt0 a2 ++ LF ++
   "Peak Infection Day: " ++ fmt0 a3 ++ LF ++
   "Peak Infected: " ++ fmt0 a4 ++ LF ++
   "Deaths at Peak: " ++ fmt0 a5 ++ LF ++
   LF ++
   "COVID-19 Final Results:" ++ LF ++
   "Total Infected: " ++ fmt0 b1 ++ LF ++
   "Total Deaths (1.4% fatality): " ++ fmt0 b2 ++ LF ++
   "Peak Infection Day: " ++ fmt0 b3 ++ LF ++
   "Peak Infected: " ++ fmt0 b4 ++ LF ++
   "Deaths at Peak: " ++ fmt0 b5 ++ LF ++
   LF)%string.
Proof.
  unfold print_results, print, newline.
  repeat rewrite string_app_assoc. simpl. reflexivity.
Qed.

(** A run whose two solutions are well shaped and whose figure is drawn
    prints the two blocks. *)
Lemma main_prints
    (solve_ivp : solver num) (tight_layout : layout num)
    (sol_plague sol_covid : OdeResult num) :
  solve_ivp sir_model t_span [S0; I0; R0] (beta_plague, gamma_plague) t_eval
    = Ok sol_plague ->
  solve_ivp sir_model t_span [S0; I0; R0] (beta_covid, gamma_covid) t_eval
    = Ok sol_covid ->
  shape_ok sol_plague = true ->
  shape_ok sol_covid = true ->
  plotting tight_layout sol_plague sol_covid = Ok tt ->
  exists a1 a2 a3 a4 a5 b1 b2 b3 b4 b5 : num,
    total_infected_plague sol_plague = Ok a1 /\
    deaths_plague sol_plague = Ok a2 /\
    peak_day_plague sol_plague = Ok a3 /\
    peak_infected_plague sol_plague = Ok a4 /\
    deaths_peak_plague sol_plague = Ok a5 /\
    total_infected_covid sol_covid = Ok b1 /\
    deaths_covid sol_covid = Ok b2 /\
    peak_day_covid sol_covid = Ok b3 /\
    peak_infected_covid sol_covid = Ok b4 /\
    deaths_peak_covid sol_covid = Ok b5 /\
    main solve_ivp tight_layout =
    Ok (print_results a1 a2 a3 a4 a5 b1 b2 b3 b4 b5 "").
Proof.
  intros Hp Hc Hsp Hsc Hplot.
  destruct (statistics_ok sol_plague Hsp)
    as (sp & ip & rp & dp & pp & Esp & Eip & Erp & Edp & Epp).
  destruct (statistics_ok sol_covid Hsc)
    as (sc & ic & rc & dc & pc & Esc & Eic & Erc & Edc & Epc).
  unfold main. rewrite Hp, Hc. simpl bind.
  rewrite Hplot. simpl bind.
  unfold deaths_plague, deaths_covid, total_infected_plague,
    total_infected_covid, deaths_peak_plague, deaths_peak_covid,
    S_final_plague, I_final_plague, R_final_plague,
    S_final_covid, I_final_covid, R_final_covid.
  change (peak_day_covid sol_covid) with (peak_day_plague sol_covid).
  change (peak_infected_covid sol_covid) with (peak_infected_plague sol_covid).
  rewrite Esp, Eip, Esc, Eic, Erc, Edp, Epp, Edc, Epc. simpl bind.
  do 10 eexists. repeat split; reflexivity.
Qed.

(** Whatever a run prints is the two blocks, filled with the statistics of
    the two solutions the solver returned. *)
Lemma main_Ok_inv
    (solve_ivp : solver num) (tight_layout : layout num) (out : string) :
  main solve_ivp tight_layout = Ok out ->
  exists (sol_plague sol_covid : OdeResult num)
         (a1 a2 a3 a4 a5 b1 b2 b3 b4 b5 : num),
    solve_ivp sir_model t_span [S0; I0; R0] (beta_plague, gamma_plague) t_eval
      = Ok sol_plague /\
    solve_ivp sir_model t_span [S0; I0; R0] (beta_covid, gamma_covid) t_eval
      = Ok sol_covid /\
    plotting tight_layout sol_plague sol_covid = Ok tt /\
    total_infected_plague sol_plague = Ok a1 /\
    deaths_plague sol_plague = Ok a2 /\
    peak_day_plague sol_plague = Ok a3 /\
    peak_infected_plague sol_plague = Ok a4 /\
    deaths_peak_plague sol_plague = Ok a5 /\
    total_infected_covid sol_covid = Ok b1 /\
    deaths_covid sol_covid = Ok b2 /\
    peak_day_covid sol_covid = Ok b3 /\
    peak_infected_covid sol_covid = Ok b4 /\
    deaths_peak_covid sol_covid = Ok b5 /\
    out = print_results a1 a2 a3 a4 a5 b1 b2 b3 b4 b5 "".
Proof.
  unfold main. intros E.
  apply bind_Ok_inv in E. destruct E as (sol_plague & Hp & E).
  apply bind_Ok_inv in E. destruct E as (sol_covid & Hc & E).
  apply bind_Ok_inv in E. destruct E as ([] & Hplot & E).
  do 6 (apply bind_Ok_inv in E; destruct E as (? & _ & E)).
  apply bind_Ok_inv in E. destruct E as (a1 & E1 & E).
  apply bind_Ok_inv in E. destruct E as (b1 & F1 & E).
  apply bind_Ok_inv in E. destruct E as (a2 & E2 & E).
  apply bind_Ok_inv in E. destruct E as (b2 & F2 & E).
  apply bind_Ok_inv in E. destruct E as (a3 & E3 & E).
  apply bind_Ok_inv in E. destruct E as (b3 & F3 & E).
  apply bind_Ok_inv in E. destruct E as (a4 & E4 & E).
  apply bind_Ok_inv in E. destruct E as (b4 & F4 & E).
  apply bind_Ok_inv in E. destruct E as (a5 & E5 & E).
  apply bind_Ok_inv in E. destruct E as (b5 & F5 & E).
  injection E as <-.
  exists sol_plague, sol_covid, a1, a2, a3, a4, a5, b1, b2, b3, b4, b5.
  repeat split; assumption.
Qed.

End Run.

(* ================================================================== *)
(** * Formatting *)
(* ================================================================== *)

(** The digits printed are those of the integer nearest to the exact binary
    value. *)
Lemma round_half_even_nearest (m : positive) (e : Z) :
  (Qabs (magnitude m e - inject_Z (Z.of_N (round_half_even m e))) <= 1 # 2)%Q.
Proof.
  destruct e as [| p | p]; unfold magnitude, round_half_even.
  - rewrite Qabs_wd with (y := 0%Q); [discriminate |].
    change (Z.of_N (N.pos m)) with (Z.pos m). ring.
  - rewrite Qabs_wd with (y := 0%Q); [discriminate |].
    rewrite N2Z.inj_mul, N2Z.inj_pow.
    change (Z.of_N (N.pos m)) with (Z.pos m).
    change (Z.of_N (N.pos p)) with (Z.pos p).
    change (Z.of_N 2) with 2%Z. ring.
  - set (d := (2 ^ N.pos p)%N).
    assert (Hd : Z.of_N d = Z.pos (2 ^ p)).
    { unfold d. rewrite N2Z.inj_pow. simpl Z.of_N.
      rewrite Pos2Z.inj_pow. reflexivity. }
    assert (Hd0 : d <> 0%N) by (unfold d; apply N.pow_nonzero; discriminate).
    pose proof (N.div_mod (N.pos m) d Hd0) as Hdm.
    pose proof (N.mod_lt (N.pos m) d Hd0) as Hlt.
    set (q := (N.pos m / d)%N) in *. set (r := (N.pos m mod d)%N) in *.
    apply (f_equal Z.of_N) in Hdm. rewrite N2Z.inj_add, N2Z.inj_mul in Hdm.
    simpl Z.of_N in Hdm at 1.
    assert (Hgoal : forall n : BinNums.N,
      (2 * Z.abs (Z.pos m - Z.of_N n * Z.of_N d) <= Z.of_N d)%Z ->
      (Qabs ((Z.pos m # 2 ^ p) - inject_Z (Z.of_N n)) <= 1 # 2)%Q).
    { intros n Hn. unfold Qle, Qabs, Qminus, Qplus, Qopp, inject_Z.
      cbn [Qnum Qden]. rewrite Hd in Hn. rewrite Pos.mul_1_r.
      set (D := Z.pos (2 ^ p)) in *. lia. }
    destruct (N.compare_spec (2 * r) d) as [He | Hl | Hg]; apply Hgoal.
    + destruct (N.even q); rewrite ?N2Z.inj_add; simpl Z.of_N; lia.
    + lia.
    + rewrite N2Z.inj_add. simpl Z.of_N. lia.
Qed.

(** [decimal n] is a numeral: it reads back as [n]. *)
Lemma decimal_reads_back (n : BinNums.N) :
  NilEmpty.uint_of_string (decimal n) = Some (N.to_uint n).
Proof. apply NilEmpty.usu. Qed.

(** C7. What the script writes to standard output is the plague block and
    then the COVID-19 block: a header, the five lines Total Infected, Total
    Deaths, Peak Infection Day, Peak Infected and Deaths at Peak, in this
    order, each carrying its statistic formatted with [.0f] and ended by a
    line feed, and an empty line after each block.  Every run that prints
    prints exactly this, and a run prints it whenever its two solutions are
    well shaped and the figure is drawn.  In binary64 the text [.0f]
    produces for a finite value is a minus sign when the sign bit is set,
    followed by the digits of an integer within one half of the value. *)
Theorem prints_two_blocks :
  (forall (num : Type) (Sc : Scalar num) (Fm : Format num)
          (solve_ivp : solver num) (tight_layout : layout num) (out : string),
      main solve_ivp tight_layout = Ok out ->
      exists (sol_plague sol_covid : OdeResult num)
             (a1 a2 a3 a4 a5 b1 b2 b3 b4 b5 : num),
        solve_ivp sir_model t_span [S0; I0; R0] (beta_plague, gamma_plague)
          t_eval = Ok sol_plague /\
        solve_ivp sir_model t_span [S0; I0; R0] (beta_covid, gamma_covid)
          t_eval = Ok sol_covid /\
        total_infected_plague sol_plague = Ok a1 /\
        deaths_plague sol_plague = Ok a2 /\
        peak_day_plague sol_plague = Ok a3 /\
        peak_infected_plague sol_plague = Ok a4 /\
        deaths_peak_plague sol_plague = Ok a5 /\
        total_infected_covid sol_covid = Ok b1 /\
        deaths_covid sol_covid = Ok b2 /\
        peak_day_covid sol_covid = Ok b3 /\
        peak_infected_covid sol_covid = Ok b4 /\
        deaths_peak_covid sol_covid = Ok b5 /\
        out =
        ("Bubonic Plague Final Results:" ++ LF ++
         "Total Infected: " ++ fmt0 a1 ++ LF ++
         "Total Deaths (10% fatality): " ++ fmt0 a2 ++ LF ++
         "Peak Infection Day: " ++ fmt0 a3 ++ LF ++
         "Peak Infected: " ++ fmt0 a4 ++ LF ++
         "Deaths at Peak: " ++ fmt0 a5 ++ LF ++
         LF ++
         "COVID-19 Final Results:" ++ LF ++
         "Total Infected: " ++ fmt0 b1 ++ LF ++
         "Total Deaths (1.4% fatality): " ++ fmt0 b2 ++ LF ++
         "Peak Infection Day: " ++ fmt0 b3 ++ LF ++
         "Peak Infected: " ++ fmt0 b4 ++ LF ++
         "Deaths at Peak: " ++ fmt0 b5 ++ LF ++
         LF)%string) /\
  (forall (num : Type) (Sc : Scalar num) (Fm : Format num)
          (solve_ivp : solver num) (tight_layout : layout num)
          (sol_plague sol_covid : OdeResult num),
      solve_ivp sir_model t_span [S0; I0; R0] (beta_plague, gamma_plague)
        t_eval = Ok sol_plague ->
      solve_ivp sir_model t_span [S0; I0; R0] (beta_covid, gamma_covid)
        t_eval = Ok sol_covid ->
      shape_ok sol_plague = true ->
      shape_ok sol_covid = true ->
      plotting tight_layout sol_plague sol_covid = Ok tt ->
      exists out : string, main solve_ivp tight_layout = Ok out) /\
  (forall (x : float) (s : bool) (m : positive) (e : Z),
      Prim2SF x = S754_finite s m e ->
      fmt0 x =
        ((if s then "-" else "") ++ decimal (round_half_even m e))%string /\
      NilEmpty.uint_of_string (decimal (round_half_even m e)) =
        Some (N.to_uint (round_half_even m e)) /\
      (Qabs (magnitude m e - inject_Z (Z.of_N (round_half_even m e)))
       <= 1 # 2)%Q) /\
  (forall (x : float) (s : bool),
      Prim2SF x = S754_zero s ->
      fmt0 x = (if s then "-0" else "0")%string).
Proof.
  split; [| split; [| split]].
  - intros num Sc Fm solve_ivp tight_layout out E.
    destruct (main_Ok_inv solve_ivp tight_layout out E)
      as (sol_plague & sol_covid & a1 & a2 & a3 & a4 & a5
          & b1 & b2 & b3 & b4 & b5 & Hp & Hc & _ & Hall).
    exists sol_plague, sol_covid, a1, a2, a3, a4, a5, b1, b2, b3, b4, b5.
    rewrite <- print_results_text. tauto.
  - intros num Sc Fm solve_ivp tight_layout sol_plague sol_covid
      Hp Hc Hsp Hsc Hplot.
    destruct (main_prints solve_ivp tight_layout sol_plague sol_covid
                Hp Hc Hsp Hsc Hplot)
      as (a1 & a2 & a3 & a4 & a5 & b1 & b2 & b3 & b4 & b5 & Hall).
    eexists. apply Hall.
  - intros x s m e Hx. split; [| split].
    + simpl. unfold fmt0_float. rewrite Hx. destruct s; reflexivity.
    + apply decimal_reads_back.
    + apply round_half_even_nearest.
  - intros x s Hx. simpl. unfold fmt0_float. rewrite Hx.
    destruct s; reflexivity.
Qed.

Lemma prints_two_blocks_witness :
  exists out : string, main (num := float) sample_solver accept_all = Ok out.
Proof.
  apply (proj1 (proj2 prints_two_blocks) float Scalar_float Format_float
           sample_solver accept_all sample_solution sample_solution).
  - reflexivity.
  - reflexivity.
  - vm_compute. reflexivity.
  - vm_compute. reflexivity.
  - vm_compute. reflexivity.
Defined.

(** The text the script prints when the solver answers with the sample
    solution and the figure is drawn, computed in binary64. *)
Example main_sample_output :
  main (num := float) sample_solver accept_all =
  Ok ("Bubonic Plague Final Results:" ++ LF ++
      "Total Infected: 683701" ++ LF ++
      "Total Deaths (10% fatality): 68370" ++ LF ++
      "Peak Infection Day: 70" ++ LF ++
      "Peak Infected: 210001" ++ LF ++
      "Deaths at Peak: 21000" ++ LF ++
      LF ++
      "COVID-19 Final Results:" ++ LF ++
      "Total Infected: 683701" ++ LF ++
      "Total Deaths (1.4% fatality): 9572" ++ LF ++
      "Peak Infection Day: 70" ++ LF ++
      "Peak Infected: 210001" ++ LF ++
      "Deaths at Peak: 2940" ++ LF ++
      LF)%string.
Proof. vm_compute. reflexivity. Qed.

(* ================================================================== *)
(** * The recovered series and the output *)
(* ================================================================== *)

Section Recovered.

Context {num : Type} `{Scalar num} `{Format num}.






End Recovered.





(* ================================================================== *)
(** * Which runs print, and how the others end *)
(* ================================================================== *)

Section Outcome.

Context {num : Type} `{Scalar num}.

Lemma printable_inv (sol : OdeResult num) :
  printable sol = true ->
  exists (S_ I_ R_ : list num) (rest : list (list num)),
    y sol = S_ :: I_ :: R_ :: rest /\
    List.length (t sol) <> 0%nat /\
    List.length S_ = List.length (t sol) /\
    List.length I_ = List.length (t sol) /\
    List.length R_ = List.length (t sol).
Proof.
  unfold printable.
  destruct (y sol) as [| S_ [| I_ [| R_ rest]]]; try discriminate.
  rewrite !andb_true_iff, negb_true_iff, Nat.eqb_neq, !Nat.eqb_eq.
  intros (((Hn & HS) & HI) & HR). exists S_, I_, R_, rest. auto.
Qed.

Lemma statistics_printable (sol : OdeResult num) :
  printable sol = true ->
  exists S_final I_final R_final peak_day peak_infected : num,
    getitem2 (y sol) 0 (-1) = Ok S_final /\
    getitem2 (y sol) 1 (-1) = Ok I_final /\
    getitem2 (y sol) 2 (-1) = Ok R_final /\
    peak_day_plague sol = Ok peak_day /\
    peak_infected_plague sol = Ok peak_infected.
Proof.
  intros Hs.
  destruct (printable_inv sol Hs)
    as (S_ & I_ & R_ & rest & Hy & Hn & HS & HI & HR).
  destruct (last_ok S_) as (s & Es); [congruence |].
  destruct (last_ok I_) as (i & Ei); [congruence |].
  destruct (last_ok R_) as (r & Er); [congruence |].
  destruct (argmax_in_bounds I_) as (k & Harg & Hk).
  { intros ->. simpl in HI. congruence. }
  destruct (getitem_in_range (t sol) k) as (day & Hday & _); [lia |].
  destruct (getitem_in_range I_ k) as (v & Hv & _); [lia |].
  exists s, i, r, day, v.
  unfold getitem2, peak_day_plague, peak_infected_plague. rewrite Hy.
  destruct (rows_012 S_ I_ R_ rest) as (-> & -> & ->).
  simpl bind. rewrite Harg. simpl bind.
  repeat split; assumption.
Qed.

(** A final value can be read only from a row that has a sample. *)
Lemma final_Ok_nonempty (sol : OdeResult num) (x : num) :
  getitem2 (y sol) 0 (-1) = Ok x ->
  exists (S_ : list num) (rest : list (list num)),
    y sol = S_ :: rest /\ List.length S_ <> 0%nat.
Proof.
  unfold getitem2. intros E.
  apply bind_Ok_inv in E. destruct E as (S_ & E0 & E1).
  destruct (y sol) as [| S_' rest]; [discriminate |].
  assert (S_' = S_) as ->.
  { pose proof (getitem_nth_error (S_' :: rest) 0 S_' eq_refl) as E.
    change (Z.of_nat 0) with 0%Z in E. congruence. }
  exists S_, rest. split; [reflexivity |].
  destruct S_; [discriminate | discriminate].
Qed.

(** The figure is drawn exactly when both panels can be plotted and the
    layout accepts their curves. *)
Lemma plotting_Ok_iff (tight_layout : layout num)
    (sol_plague sol_covid : OdeResult num) :
  plotting tight_layout sol_plague sol_covid = Ok tt <->
  exists left right : list (curve num),
    panel sol_plague (lit 0.1) = Ok left /\
    panel sol_covid (lit 0.014) = Ok right /\
    tight_layout left right = true.
Proof.
  unfold plotting. split.
  - intros E.
    apply bind_Ok_inv in E. destruct E as (left & El & E).
    apply bind_Ok_inv in E. destruct E as (right & Er & E).
    exists left, right. split; [exact El |]. split; [exact Er |].
    destruct (tight_layout left right); [reflexivity | discriminate].
  - intros (left & right & -> & -> & E). simpl bind. rewrite E. reflexivity.
Qed.

Context `{Format num}.

Lemma main_printable (solve_ivp : solver num) (tight_layout : layout num)
    (sol_plague sol_covid : OdeResult num) :
  solve_ivp sir_model t_span [S0; I0; R0] (beta_plague, gamma_plague) t_eval
    = Ok sol_plague ->
  solve_ivp sir_model t_span [S0; I0; R0] (beta_covid, gamma_covid) t_eval
    = Ok sol_covid ->
  printable sol_plague = true ->
  printable sol_covid = true ->
  plotting tight_layout sol_plague sol_covid = Ok tt ->
  exists out : string, main solve_ivp tight_layout = Ok out.
Proof.
  intros Hp Hc Hsp Hsc Hplot.
  destruct (statistics_printable sol_plague Hsp)
    as (sp & ip & rp & dp & pp & Esp & Eip & Erp & Edp & Epp).
  destruct (statistics_printable sol_covid Hsc)
    as (sc & ic & rc & dc & pc & Esc & Eic & Erc & Edc & Epc).
  unfold main. rewrite Hp, Hc. simpl bind.
  rewrite Hplot. simpl bind.
  unfold deaths_plague, deaths_covid, total_infected_plague,
    total_infected_covid, deaths_peak_plague, deaths_peak_covid,
    S_final_plague, I_final_plague, R_final_plague,
    S_final_covid, I_final_covid, R_final_covid.
  change (peak_day_covid sol_covid) with (peak_day_plague sol_covid).
  change (peak_infected_covid sol_covid) with (peak_infected_plague sol_covid).
  rewrite Esp, Eip, Esc, Eic, Erc, Edp, Epp, Edc, Epc. simpl bind.
  eexists. reflexivity.
Qed.

Lemma main_Ok_printable (solve_ivp : solver num) (tight_layout : layout num)
    (sol_plague sol_covid : OdeResult num) (out : string) :
  solve_ivp sir_model t_span [S0; I0; R0] (beta_plague, gamma_plague) t_eval
    = Ok sol_plague ->
  solve_ivp sir_model t_span [S0; I0; R0] (beta_covid, gamma_covid) t_eval
    = Ok sol_covid ->
  main solve_ivp tight_layout = Ok out ->
  printable sol_plague = true /\ printable sol_covid = true /\
  plotting tight_layout sol_plague sol_covid = Ok tt.
Proof.
  intros Hp Hc. unfold main. rewrite Hp, Hc. simpl bind. intros E.
  apply bind_Ok_inv in E. destruct E as ([] & Eplot & E).
  destruct (proj1 (plotting_Ok_iff _ _ _) Eplot)
    as (left & right & Epp & Epc & _).
  apply bind_Ok_inv in E. destruct E as (sp & Esp & E).
  apply bind_Ok_inv in E. destruct E as (ip & _ & E).
  apply bind_Ok_inv in E. destruct E as (rp & _ & E).
  apply bind_Ok_inv in E. destruct E as (sc & Esc & _).
  assert (Hgen : forall (sol : OdeResult num) (ratio : num)
                        (cs : list (curve num)) (x : num),
             panel sol ratio = Ok cs -> getitem2 (y sol) 0 (-1) = Ok x ->
             printable sol = true).
  { intros sol ratio cs x Hpanel Hfin.
    destruct (panel_Ok_inv _ _ _ Hpanel)
      as (S_ & I_ & R_ & rest & Hy & HS & HI & HR).
    destruct (final_Ok_nonempty _ _ Hfin) as (S_' & rest' & Hy' & Hne).
    rewrite Hy in Hy'. injection Hy' as <- _.
    unfold printable. rewrite Hy, HS, HI, HR, !Nat.eqb_refl.
    rewrite <- HS. apply Nat.eqb_neq in Hne. rewrite Hne. reflexivity. }
  split; [| split]; [eapply Hgen; eassumption .. | exact Eplot].
Qed.

End Outcome.

Section OutcomeTheorems.

Context {num : Type} `{Scalar num}.

Lemma raises_only_bind {A B : Type} (allowed : exn -> bool)
    (c : result A) (k : A -> result B) :
  raises_only allowed c -> (forall a, raises_only allowed (k a)) ->
  raises_only allowed (bind c k).
Proof. destruct c as [a | e]; simpl; auto. Qed.

Lemma getitem_raises {A : Type} (a : list A) (i : Z) :
  raises_only index_or_value (getitem a i).
Proof.
  unfold getitem.
  destruct (_ && _)%bool; [| reflexivity].
  destruct (nth_error a _); [exact I | reflexivity].
Qed.

Lemma getitem2_raises {A : Type} (a : list (list A)) (i j : Z) :
  raises_only index_or_value (getitem2 a i j).
Proof.
  unfold getitem2. apply raises_only_bind; [apply getitem_raises |].
  intros row. apply getitem_raises.
Qed.

Lemma plot_raises (x ys : list num) : raises_only index_or_value (plot x ys).
Proof. unfold plot. destruct (Nat.eqb _ _); [exact I | reflexivity]. Qed.

Lemma argmax_raises (a : list num) : raises_only index_or_value (argmax a).
Proof.
  unfold argmax. destruct a as [| x a]; [reflexivity |].
  destruct (isnan x); exact I.
Qed.

Lemma panel_raises (sol : OdeResult num) (ratio : num) :
  raises_only index_or_value (panel sol ratio).
Proof.
  unfold panel.
  repeat first
    [ apply getitem_raises
    | apply plot_raises
    | exact I
    | apply raises_only_bind; [| intros ? ] ].
Qed.

Lemma plotting_raises (tight_layout : layout num)
    (sol_plague sol_covid : OdeResult num) :
  raises_only index_or_value (plotting tight_layout sol_plague sol_covid).
Proof.
  unfold plotting.
  apply raises_only_bind; [apply panel_raises | intros left].
  apply raises_only_bind; [apply panel_raises | intros right].
  destruct (tight_layout left right); [exact I | reflexivity].
Qed.

Lemma peak_day_raises (sol : OdeResult num) :
  raises_only index_or_value (peak_day_plague sol).
Proof.
  unfold peak_day_plague.
  repeat first
    [ apply raises_only_bind; [| intros ? ]
    | apply getitem_raises
    | apply argmax_raises ].
Qed.

Lemma peak_infected_raises (sol : OdeResult num) :
  raises_only index_or_value (peak_infected_plague sol).
Proof.
  unfold peak_infected_plague.
  repeat first
    [ apply raises_only_bind; [| intros ? ]
    | apply getitem_raises
    | apply argmax_raises ].
Qed.

End OutcomeTheorems.

(** X1. When the solver returns its two solutions, the script prints (it
    ends without an exception) exactly when the figure is drawn and both
    solutions have rows 0, 1 and 2 as long as their sample times and at
    least one sample. *)
Theorem run_prints_iff_printable
    (num : Type) (Sc : Scalar num) (Fm : Format num)
    (solve_ivp : solver num) (tight_layout : layout num)
    (sol_plague sol_covid : OdeResult num) :
  solve_ivp sir_model t_span [S0; I0; R0] (beta_plague, gamma_plague) t_eval
    = Ok sol_plague ->
  solve_ivp sir_model t_span [S0; I0; R0] (beta_covid, gamma_covid) t_eval
    = Ok sol_covid ->
  ((exists out : string, main solve_ivp tight_layout = Ok out) <->
   printable sol_plague = true /\ printable sol_covid = true /\
   plotting tight_layout sol_plague sol_covid = Ok tt).
Proof.
  intros Hp Hc. split.
  - intros (out & E). exact (main_Ok_printable _ _ _ _ _ Hp Hc E).
  - intros (Hsp & Hsc & Hplot).
    exact (main_printable _ _ _ _ Hp Hc Hsp Hsc Hplot).
Qed.

Lemma run_prints_iff_printable_witness :
  ((exists out : string,
      main (num := float) sample_solver overflow_layout = Ok out) <->
   printable (sample_solution : OdeResult float) = true /\
   printable (sample_solution : OdeResult float) = true /\
   plotting overflow_layout (sample_solution : OdeResult float)
     sample_solution = Ok tt) /\
  ((exists out : string,
      main (num := float)
        (sample_solver_R_wide 0x1.1ccf385ebc8a0p+1023%float) overflow_layout
      = Ok out) <->
   printable (sample_solution_R_wide 0x1.1ccf385ebc8a0p+1023%float) = true /\
   printable (sample_solution_R_wide 0x1.1ccf385ebc8a0p+1023%float) = true /\
   plotting overflow_layout
     (sample_solution_R_wide 0x1.1ccf385ebc8a0p+1023%float)
     (sample_solution_R_wide 0x1.1ccf385ebc8a0p+1023%float) = Ok tt).
Proof.
  split.
  - apply (run_prints_iff_printable float Scalar_float Format_float
             sample_solver overflow_layout sample_solution sample_solution).
    + reflexivity.
    + reflexivity.
  - apply (run_prints_iff_printable float Scalar_float Format_float
             (sample_solver_R_wide 0x1.1ccf385ebc8a0p+1023%float)
             overflow_layout
             (sample_solution_R_wide 0x1.1ccf385ebc8a0p+1023%float)
             (sample_solution_R_wide 0x1.1ccf385ebc8a0p+1023%float)).
    + reflexivity.
    + reflexivity.
Defined.

(** X2. Whatever the two solutions the solver returns, the script never
    raises [ZeroDivisionError]: a run that does not print ends in an
    [IndexError] or a [ValueError]. *)
Theorem run_raises_index_or_value
    (num : Type) (Sc : Scalar num) (Fm : Format num)
    (solve_ivp : solver num) (tight_layout : layout num)
    (sol_plague sol_covid : OdeResult num) :
  solve_ivp sir_model t_span [S0; I0; R0] (beta_plague, gamma_plague) t_eval
    = Ok sol_plague ->
  solve_ivp sir_model t_span [S0; I0; R0] (beta_covid, gamma_covid) t_eval
    = Ok sol_covid ->
  raises_only index_or_value (main solve_ivp tight_layout) /\
  main solve_ivp tight_layout <> Raise ZeroDivisionError.
Proof.
  intros Hp Hc.
  assert (Hr : raises_only index_or_value (main solve_ivp tight_layout)).
  { unfold main. rewrite Hp, Hc. simpl bind.
    unfold deaths_plague, deaths_covid, total_infected_plague,
      total_infected_covid, deaths_peak_plague, deaths_peak_covid,
      S_final_plague, I_final_plague, R_final_plague,
      S_final_covid, I_final_covid, R_final_covid.
    change (@peak_day_covid num _) with (@peak_day_plague num _).
    change (@peak_infected_covid num _) with (@peak_infected_plague num _).
    repeat first
      [ apply plotting_raises
      | apply getitem2_raises
      | apply peak_day_raises
      | apply peak_infected_raises
      | exact I
      | apply raises_only_bind; [| intros ? ] ]. }
  split; [exact Hr |].
  intros E. rewrite E in Hr. discriminate Hr.
Qed.

Lemma run_raises_index_or_value_witness :
  raises_only index_or_value (main (num := float) sample_solver accept_all) /\
  main (num := float) sample_solver accept_all <> Raise ZeroDivisionError.
Proof.
  apply (run_raises_index_or_value float Scalar_float Format_float
           sample_solver accept_all sample_solution sample_solution).
  - reflexivity.
  - reflexivity.
Defined.

(** X3. If the solver returns a plague solution with no sample at all
    (empty sample times, three empty rows), the eight curves are plotted,
    the final value [sol_plague.y[0, -1]] cannot be read, and nothing is
    printed: the script stops with [IndexError] at that line when the
    layout accepts the figure, and with the [ValueError] of the layout
    otherwise. *)
Theorem run_without_samples
    (num : Type) (Sc : Scalar num) (Fm : Format num)
    (solve_ivp : solver num) (tight_layout : layout num)
    (sol_plague sol_covid : OdeResult num)
    (rest : list (list num)) :
  solve_ivp sir_model t_span [S0; I0; R0] (beta_plague, gamma_plague) t_eval
    = Ok sol_plague ->
  solve_ivp sir_model t_span [S0; I0; R0] (beta_covid, gamma_covid) t_eval
    = Ok sol_covid ->
  t sol_plague = [] ->
  y sol_plague = [] :: [] :: [] :: rest ->
  printable sol_covid = true ->
  exists right : list (curve num),
    panel sol_plague (lit 0.1) = Ok [([], []); ([], []); ([], []); ([], [])] /\
    panel sol_covid (lit 0.014) = Ok right /\
    S_final_plague sol_plague = Raise IndexError /\
    main solve_ivp tight_layout =
      (if tight_layout [([], []); ([], []); ([], []); ([], [])] right
       then Raise IndexError else Raise ValueError).
Proof.
  intros Hp Hc Ht Hy Hsc.
  destruct (printable_inv sol_covid Hsc)
    as (S_ & I_ & R_ & rest' & Hy' & _ & HS & HI & HR).
  pose proof (panel_rows sol_covid (lit 0.014) S_ I_ R_ rest' Hy' HS HI HR)
    as Hright.
  assert (Hleft : panel sol_plague (lit 0.1)
                  = Ok [([], []); ([], []); ([], []); ([], [])]).
  { rewrite (panel_rows sol_plague (lit 0.1) [] [] [] rest Hy);
      rewrite Ht; reflexivity. }
  assert (Hfin : S_final_plague sol_plague = Raise IndexError).
  { unfold S_final_plague, getitem2. rewrite Hy.
    destruct (rows_012 (@nil num) [] [] rest) as (-> & _ & _).
    reflexivity. }
  eexists. split; [exact Hleft |]. split; [exact Hright |].
  split; [exact Hfin |].
  unfold main. rewrite Hp, Hc. simpl bind.
  unfold plotting. rewrite Hleft, Hright. simpl bind.
  destruct (tight_layout _ _); simpl bind; [rewrite Hfin |]; reflexivity.
Qed.

Lemma run_without_samples_witness :
  exists right : list (curve float),
    panel (no_samples : OdeResult float) (lit 0.1)
      = Ok [([], []); ([], []); ([], []); ([], [])] /\
    panel (sample_solution : OdeResult float) (lit 0.014) = Ok right /\
    S_final_plague (no_samples : OdeResult float) = Raise IndexError /\
    main (two_answers (fun b => PrimFloat.eqb b (lit 0.3))
            no_samples sample_solution) overflow_layout =
      (if overflow_layout [([], []); ([], []); ([], []); ([], [])] right
       then Raise IndexError else Raise ValueError).
Proof.
  apply (run_without_samples float Scalar_float Format_float
           (two_answers (fun b => PrimFloat.eqb b (lit 0.3))
              no_samples sample_solution) overflow_layout
           no_samples sample_solution []).
  - vm_compute. reflexivity.
  - vm_compute. reflexivity.
  - reflexivity.
  - reflexivity.
  - vm_compute. reflexivity.
Defined.

(** X4. If the susceptible row of the plague solution is not as long as the
    sample times, the first [plt.plot] call raises [ValueError] and the
    script stops there: no statistic is computed and nothing is printed. *)
Theorem run_with_mismatched_rows
    (num : Type) (Sc : Scalar num) (Fm : Format num)
    (solve_ivp : solver num) (tight_layout : layout num)
    (sol_plague sol_covid : OdeResult num)
    (S_ : list num) (rest : list (list num)) :
  solve_ivp sir_model t_span [S0; I0; R0] (beta_plague, gamma_plague) t_eval
    = Ok sol_plague ->
  solve_ivp sir_model t_span [S0; I0; R0] (beta_covid, gamma_covid) t_eval
    = Ok sol_covid ->
  y sol_plague = S_ :: rest ->
  List.length S_ <> List.length (t sol_plague) ->
  main solve_ivp tight_layout = Raise ValueError.
Proof.
  intros Hp Hc Hy Hlen.
  unfold main. rewrite Hp, Hc. simpl bind.
  unfold plotting, panel. rewrite Hy.
  pose proof (getitem_nth_error (S_ :: rest) 0 S_ eq_refl) as E.
  change (Z.of_nat 0) with 0%Z in E. rewrite E. simpl bind.
  unfold plot.
  destruct (Nat.eqb_spec (List.length (t sol_plague)) (List.length S_));
    [congruence | reflexivity].
Qed.

Lemma run_with_mismatched_rows_witness :
  main (num := float) (fun _ _ _ _ _ => Ok short_row) accept_all
    = Raise ValueError.
Proof.
  apply (run_with_mismatched_rows float Scalar_float Format_float
           (fun _ _ _ _ _ => Ok short_row) accept_all short_row short_row
           [fromZ 5] [[fromZ 1; fromZ 2]; [fromZ 0; fromZ 3]]).
  - reflexivity.
  - reflexivity.
  - reflexivity.
  - simpl. lia.
Defined.

(* ================================================================== *)
(** * More on the derivative function and its exact solutions *)
(* ================================================================== *)

(** X5. [sir_model] accepts exactly the states of three components: on them
    it returns three derivatives, on a list of any other length it raises
    [ValueError], whatever the scalar type and the parameters. *)
Theorem sir_model_state_length
    (num : Type) (Sc : Scalar num) (t : num) (y : list num)
    (beta gamma : num) :
  (List.length y = 3%nat ->
   exists dSdt dIdt dRdt : num,
     sir_model t y beta gamma = Ok [dSdt; dIdt; dRdt]) /\
  (List.length y <> 3%nat -> sir_model t y beta gamma = Raise ValueError).
Proof.
  destruct y as [| a [| b [| c [| d l]]]]; simpl List.length; split;
    intros Hlen; try lia; try reflexivity.
  rewrite sir_model_eq. do 3 eexists. reflexivity.
Qed.

Local Open Scope R_scope.

Lemma sir_model_real (t S_ I_ R_ beta gamma : R) :
  sir_model t [S_; I_; R_] beta gamma =
  Ok [ - (beta * S_ * I_ / 729000);
       beta * S_ * I_ / 729000 - gamma * I_;
       gamma * I_ ].
Proof.
  rewrite sir_model_eq, fromZ_R. simpl. do 2 f_equal. field.
Qed.

(** X6. The epidemic threshold, in exact arithmetic: on a state with
    infected people the number of infected grows exactly when
    [beta * S > gamma * N], is stationary when the two are equal and
    shrinks when [beta * S < gamma * N]. *)
Theorem epidemic_threshold
    (t S_ I_ R_ beta gamma dSdt dIdt dRdt : R) :
  0 < I_ ->
  sir_model t [S_; I_; R_] beta gamma = Ok [dSdt; dIdt; dRdt] ->
  (0 < dIdt <-> gamma * 729000 < beta * S_) /\
  (dIdt = 0 <-> beta * S_ = gamma * 729000) /\
  (dIdt < 0 <-> beta * S_ < gamma * 729000).
Proof.
  intros HI Hm. apply sir_model_inv in Hm. destruct Hm as (_ & -> & _).
  set (k := beta * S_ - gamma * 729000).
  replace (beta * S_ * I_ / 729000 - gamma * I_)
    with (k * (I_ / 729000)) by (unfold k; field).
  assert (Hpos : 0 < I_ / 729000) by (apply Rdiv_lt_0_compat; lra).
  assert (Hk : k = beta * S_ - gamma * 729000) by reflexivity.
  clearbody k.
  repeat split; intros Hx.
  - destruct (Rlt_le_dec 0 k) as [Hlt | Hle]; [lra |].
    assert (k * (I_ / 729000) <= 0); [| lra].
    replace 0 with (0 * (I_ / 729000)) by ring.
    apply Rmult_le_compat_r; lra.
  - assert (0 < k) by lra. apply Rmult_lt_0_compat; assumption.
  - apply Rmult_integral in Hx. destruct Hx; lra.
  - replace k with 0 by lra. ring.
  - destruct (Rlt_le_dec k 0) as [Hlt | Hle]; [lra |].
    assert (0 <= k * (I_ / 729000)); [| lra].
    apply Rmult_le_pos; lra.
  - assert (k < 0) by lra.
    replace 0 with (0 * (I_ / 729000)) by ring.
    apply Rmult_lt_compat_r; assumption.
Qed.

Lemma epidemic_threshold_witness :
  (0 < 0.3 * 728999 * 1 / 729000 - 0.1 * 1 <-> 0.1 * 729000 < 0.3 * 728999) /\
  (0.3 * 728999 * 1 / 729000 - 0.1 * 1 = 0 <-> 0.3 * 728999 = 0.1 * 729000) /\
  (0.3 * 728999 * 1 / 729000 - 0.1 * 1 < 0 <-> 0.3 * 728999 < 0.1 * 729000).
Proof.
  apply (epidemic_threshold 0 728999 1 0 0.3 0.1
           (- (0.3 * 728999 * 1 / 729000))
           (0.3 * 728999 * 1 / 729000 - 0.1 * 1) (0.1 * 1)).
  - lra.
  - apply sir_model_real.
Defined.

(** X7. The equilibria, in exact arithmetic: when [gamma] is not zero, the
    derivative vector is zero exactly on the states without infected. *)
Theorem equilibria_are_disease_free (t S_ I_ R_ beta gamma : R) :
  gamma <> 0 ->
  (sir_model t [S_; I_; R_] beta gamma = Ok [0; 0; 0] <-> I_ = 0).
Proof.
  intros Hg. rewrite sir_model_real. split.
  - intros E. injection E as _ _ E.
    apply Rmult_integral in E. destruct E; [contradiction | assumption].
  - intros ->. do 2 f_equal; [field | f_equal; [field | f_equal; ring]].
Qed.

Lemma equilibria_are_disease_free_witness :
  sir_model (num := R) 0 [728999; 0; 1] 0.3 0.1 = Ok [0; 0; 0] <-> 0 = 0.
Proof.
  apply (equilibria_are_disease_free 0 728999 0 1 0.3 0.1). lra.
Defined.

(** X8. In exact arithmetic and for non-negative parameters, along a
    solution of the equations that starts with non-negative compartments
    and a population of [N], every compartment stays between 0 and [N], the
    susceptible never exceed their initial number, and the number of people
    infected so far, [N - S], stays between its initial value [N - S(0)]
    and [N]. *)
Theorem exact_solution_bounds
    (beta gamma T : R) (S_ I_ R_ : R -> R) :
  0 <= beta -> 0 <= gamma ->
  sir_solution beta gamma T S_ I_ R_ ->
  0 <= S_ 0 -> 0 <= I_ 0 -> 0 <= R_ 0 ->
  S_ 0 + I_ 0 + R_ 0 = IZR N ->
  forall t : R, 0 <= t <= T ->
    0 <= S_ t /\ S_ t <= S_ 0 /\ S_ t <= IZR N /\
    0 <= I_ t /\ I_ t <= IZR N /\
    0 <= R_ t /\ R_ t <= IZR N /\
    IZR N - S_ 0 <= IZR N - S_ t /\ IZR N - S_ t <= IZR N.
Proof.
  intros Hb Hg Hsol HS0 HI0 HR0 H0 t Ht.
  destruct (solution_monotone beta gamma T S_ I_ R_ Hb Hg Hsol HS0 HI0 0 t)
    as [HS HR]; try lra.
  pose proof (solution_total beta gamma T S_ I_ R_ Hsol t Ht) as Htot.
  destruct (solution_nonnegative beta gamma T S_ I_ R_ Hsol HS0 HI0 t Ht)
    as [HSt HIt].
  repeat split; lra.
Qed.

Lemma exact_solution_bounds_witness :
  0 <= logistic_S 0.3 80 /\ logistic_S 0.3 80 <= logistic_S 0.3 0 /\
  logistic_S 0.3 80 <= IZR N /\
  0 <= logistic_I 0.3 80 /\ logistic_I 0.3 80 <= IZR N /\
  0 <= logistic_R 80 /\ logistic_R 80 <= IZR N /\
  IZR N - logistic_S 0.3 0 <= IZR N - logistic_S 0.3 80 /\
  IZR N - logistic_S 0.3 80 <= IZR N.
Proof.
  destruct (logistic_starts 0.3) as (ES & EI & ER).
  apply (exact_solution_bounds 0.3 0 160
           (logistic_S 0.3) (logistic_I 0.3) logistic_R
           ltac:(lra) ltac:(lra) (logistic_solution 0.3 160)).
  - rewrite ES. change S0 with 728999%Z. lra.
  - rewrite EI. change I0 with 1%Z. lra.
  - rewrite ER. change R0 with 0%Z. lra.
  - rewrite ES, EI, ER.
    change S0 with 728999%Z. change I0 with 1%Z. change R0 with 0%Z.
    unfold N. lra.
  - lra.
Defined.

Local Close Scope R_scope.

(* ================================================================== *)
(** * Relations between the statistics *)
(* ================================================================== *)

Lemma getitem_In {A : Type} (a : list A) (i : Z) (x : A) :
  getitem a i = Ok x -> In x a.
Proof.
  unfold getitem.
  destruct (_ && _)%bool; [| discriminate].
  destruct (nth_error a _) as [x' |] eqn:E; [| discriminate].
  intros [= <-]. eapply nth_error_In, E.
Qed.

(** Index [-1] reads the last element. *)
Lemma getitem_app_last {A : Type} (l : list A) (x : A) :
  getitem (l ++ [x])%list (-1) = Ok x.
Proof.
  rewrite getitem_minus_one, length_app. simpl List.length.
  replace (Z.of_nat (List.length l + 1) - 1)%Z
    with (Z.of_nat (List.length l)) by lia.
  apply getitem_nth_error.
  rewrite nth_error_app2 by lia. rewrite Nat.sub_diag. reflexivity.
Qed.

(** X9. For an infected series without NaN, the peak infected is one of the
    samples and no sample is greater; in particular the final infected
    value, and with it [R_final_plague], which is read from the same row,
    is at most the peak infected. *)
Theorem peak_dominates_samples
    (num : Type) (Sc : Scalar num) (So : ScalarOrder num)
    (sol : OdeResult num) (I_ : list num) :
  nth_error (y sol) 1 = Some I_ ->
  I_ <> [] ->
  no_nan I_ = true ->
  exists peak last : num,
    peak_infected_plague sol = Ok peak /\
    peak_infected_covid sol = Ok peak /\
    In peak I_ /\
    (forall z, In z I_ -> leb z peak = true) /\
    I_final_plague sol = Ok last /\
    I_final_covid sol = Ok last /\
    R_final_plague sol = Ok last /\
    leb last peak = true.
Proof.
  intros Hrow Hne Hnan.
  destruct (argmax_first_max I_ Hne Hnan) as (k & v & Harg & Hv & Hge & _).
  destruct (last_ok I_) as (last & Hlast).
  { destruct I_; [congruence | discriminate]. }
  pose proof (getitem_nth_error (y sol) 1 I_ Hrow) as Hr.
  change (Z.of_nat 1) with 1%Z in Hr.
  exists v, last.
  unfold peak_infected_plague, peak_infected_covid, I_final_plague,
    I_final_covid, R_final_plague, getitem2.
  rewrite Hr. simpl bind. rewrite Harg. simpl bind.
  rewrite (getitem_nth_error _ _ _ Hv), Hlast.
  repeat split; try reflexivity.
  - eapply nth_error_In, Hv.
  - exact Hge.
  - apply Hge. eapply getitem_In, Hlast.
Qed.

Lemma peak_dominates_samples_witness :
  exists peak last : float,
    peak_infected_plague sample_solution = Ok peak /\
    peak_infected_covid sample_solution = Ok peak /\
    In peak (sample_row sample_I) /\
    (forall z, In z (sample_row sample_I) -> leb z peak = true) /\
    I_final_plague sample_solution = Ok last /\
    I_final_covid sample_solution = Ok last /\
    R_final_plague sample_solution = Ok last /\
    leb last peak = true.
Proof.
  apply (peak_dominates_samples float Scalar_float ScalarOrder_float
           sample_solution (sample_row sample_I)).
  - reflexivity.
  - discriminate.
  - vm_compute. reflexivity.
Defined.

(** X10. Whatever the number of samples, as long as there is one, the final
    values are the last samples of the rows the statements read: row 0 for
    the susceptible, row 1 for the infected and for [R_final_plague], row 2
    for [R_final_covid]; and the total infected is [N] minus the last
    susceptible sample. *)
Theorem final_values_are_last_samples
    (num : Type) (Sc : Scalar num) (sol : OdeResult num)
    (S_ I_ R_ : list num) (s i r : num) (rest : list (list num)) :
  y sol = (S_ ++ [s])%list :: (I_ ++ [i])%list :: (R_ ++ [r])%list :: rest ->
  S_final_plague sol = Ok s /\ I_final_plague sol = Ok i /\
  R_final_plague sol = Ok i /\
  S_final_covid sol = Ok s /\ I_final_covid sol = Ok i /\
  R_final_covid sol = Ok r /\
  total_infected_plague sol = Ok (sub (fromZ N) s) /\
  total_infected_covid sol = Ok (sub (fromZ N) s).
Proof.
  intros Hy.
  unfold total_infected_plague, total_infected_covid,
    S_final_plague, I_final_plague, R_final_plague,
    S_final_covid, I_final_covid, R_final_covid, getitem2.
  rewrite Hy.
  destruct (rows_012 (S_ ++ [s])%list (I_ ++ [i])%list (R_ ++ [r])%list rest)
    as (-> & -> & ->).
  simpl bind. rewrite !getitem_app_last.
  repeat split; reflexivity.
Qed.

Lemma final_values_are_last_samples_witness :
  S_final_plague three_samples = Ok 1%R /\
  I_final_plague three_samples = Ok 2%R /\
  R_final_plague three_samples = Ok 2%R /\
  S_final_covid three_samples = Ok 1%R /\
  I_final_covid three_samples = Ok 2%R /\
  R_final_covid three_samples = Ok 3%R /\
  total_infected_plague three_samples = Ok (sub (fromZ N) 1%R) /\
  total_infected_covid three_samples = Ok (sub (fromZ N) 1%R).
Proof.
  apply (final_values_are_last_samples R Scalar_R three_samples
           [5; 3]%R [1; 3]%R [0; 0]%R 1%R 2%R 3%R []).
  reflexivity.
Defined.

(** The fourth curve of a panel is the deaths curve. *)
Lemma panel_draws_deaths_curve {num : Type} `{Scalar num}
    (sol : OdeResult num) (ratio : num) :
  panel sol ratio =
  (y0 <- getitem (y sol) 0 ;; c0 <- plot (t sol) y0 ;;
   y1 <- getitem (y sol) 1 ;; c1 <- plot (t sol) y1 ;;
   y2 <- getitem (y sol) 2 ;; c2 <- plot (t sol) y2 ;;
   deaths <- deaths_curve sol ratio ;; c3 <- plot (t sol) deaths ;;
   Ok [c0; c1; c2; c3]).
Proof.
  unfold panel, deaths_curve.
  destruct (getitem (y sol) 0) as [y0 |]; [| reflexivity]. simpl bind.
  destruct (plot (t sol) y0); [| reflexivity]. simpl bind.
  destruct (getitem (y sol) 1) as [y1 |]; [| reflexivity]. simpl bind.
  destruct (plot (t sol) y1); [| reflexivity]. simpl bind.
  destruct (getitem (y sol) 2) as [y2 |]; [| reflexivity]. simpl bind.
  destruct (plot (t sol) y2); reflexivity.
Qed.

Lemma Rmul_monotone (ratio : R) :
  (0 <= ratio)%R ->
  forall a b : R, leb a b = true -> leb (mul a ratio) (mul b ratio) = true.
Proof.
  intros Hr a b Hab. simpl in *. apply Rleb_true in Hab. apply Rleb_true.
  apply Rmult_le_compat_r; assumption.
Qed.

(** X11. The dashed curve of a panel is the infected series times the
    fatality ratio.  When multiplying by the ratio preserves [<=] (as it
    does in exact arithmetic for a ratio that is not negative), the largest
    value of that curve is the peak infected times the ratio: Deaths at
    Peak is the top of the plotted deaths curve, for the plague with 0.1
    and for COVID-19 with 0.014. *)
Theorem deaths_at_peak_tops_deaths_curve
    (num : Type) (Sc : Scalar num) (So : ScalarOrder num)
    (sol : OdeResult num) (I_ : list num) (ratio : num) :
  nth_error (y sol) 1 = Some I_ ->
  I_ <> [] ->
  no_nan I_ = true ->
  (forall a b : num,
      leb a b = true -> leb (mul a ratio) (mul b ratio) = true) ->
  exists (peak : num) (curve : list num),
    peak_infected_plague sol = Ok peak /\
    deaths_curve sol ratio = Ok curve /\
    List.length curve = List.length I_ /\
    In (mul peak ratio) curve /\
    (forall z, In z curve -> leb z (mul peak ratio) = true) /\
    (ratio = lit 0.1 -> deaths_peak_plague sol = Ok (mul peak ratio)) /\
    (ratio = lit 0.014 -> deaths_peak_covid sol = Ok (mul peak ratio)).
Proof.
  intros Hrow Hne Hnan Hmono.
  destruct (argmax_first_max I_ Hne Hnan) as (k & v & Harg & Hv & Hge & _).
  pose proof (getitem_nth_error (y sol) 1 I_ Hrow) as Hr.
  change (Z.of_nat 1) with 1%Z in Hr.
  assert (Hpeak : peak_infected_plague sol = Ok v).
  { unfold peak_infected_plague. rewrite Hr. simpl bind.
    rewrite Harg. simpl bind. apply getitem_nth_error, Hv. }
  exists v, (map (fun x => mul x ratio) I_).
  split; [exact Hpeak |].
  split; [unfold deaths_curve; rewrite Hr; reflexivity |].
  split; [apply length_map |].
  split.
  { apply (in_map (fun x => mul x ratio)). eapply nth_error_In, Hv. }
  split.
  - intros z Hz. apply in_map_iff in Hz. destruct Hz as (x & <- & Hx).
    apply Hmono, Hge, Hx.
  - split; intros ->.
    + unfold deaths_peak_plague. rewrite Hpeak. reflexivity.
    + unfold deaths_peak_covid.
      change (peak_infected_covid sol) with (peak_infected_plague sol).
      rewrite Hpeak. reflexivity.
Qed.

Lemma deaths_at_peak_tops_deaths_curve_witness :
  exists (peak : R) (curve : list R),
    peak_infected_plague three_samples = Ok peak /\
    deaths_curve three_samples (lit 0.1) = Ok curve /\
    List.length curve = List.length [1; 3; 2]%R /\
    In (mul peak (lit 0.1)) curve /\
    (forall z, In z curve -> leb z (mul peak (lit 0.1)) = true) /\
    ((lit 0.1 : R) = lit 0.1 ->
     deaths_peak_plague three_samples = Ok (mul peak (lit 0.1))) /\
    ((lit 0.1 : R) = lit 0.014 ->
     deaths_peak_covid three_samples = Ok (mul peak (lit 0.1))).
Proof.
  apply (deaths_at_peak_tops_deaths_curve R Scalar_R ScalarOrder_R
           three_samples [1; 3; 2]%R (lit 0.1)).
  - reflexivity.
  - discriminate.
  - reflexivity.
  - apply Rmul_monotone. simpl. unfold Q2R. simpl. lra.
Defined.

(* ================================================================== *)
(** * The sample times *)
(* ================================================================== *)

Lemma linspace_eq {num : Type} `{Scalar num} (start stop : num) (m : nat) :
  m <> 0%nat ->
  linspace start stop (S m) =
  (map (fun i =>
          add (mul (fromZ (Z.of_nat i))
                 (div (sub stop start) (fromZ (Z.of_nat m)))) start)
     (seq 0 m) ++ [stop])%list.
Proof. destruct m; [congruence | reflexivity]. Qed.

Lemma nth_error_map_seq {A : Type} (f : nat -> A) (m k : nat) :
  (k < m)%nat -> nth_error (map f (seq 0 m)) k = Some (f k).
Proof.
  intros Hk. apply map_nth_error.
  rewrite (nth_error_nth' _ 0%nat) by (rewrite length_seq; exact Hk).
  rewrite seq_nth by exact Hk. reflexivity.
Qed.

(** The sample times in exact arithmetic. *)
Lemma t_eval_nth (k : nat) :
  (k < 160)%nat ->
  nth_error (t_eval (num := R)) k =
  Some (IZR (Z.of_nat k) * 160 / 159)%R.
Proof.
  intros Hk. unfold t_eval. simpl fst. simpl snd.
  rewrite (linspace_eq _ _ 159) by discriminate.
  destruct (Nat.eq_dec k 159) as [-> | Hne].
  - rewrite nth_error_app2 by (rewrite length_map, length_seq; lia).
    rewrite length_map, length_seq, Nat.sub_diag. cbn [nth_error].
    f_equal. rewrite fromZ_R. change (Z.of_nat 159) with 159%Z. field.
  - rewrite nth_error_app1 by (rewrite length_map, length_seq; lia).
    rewrite nth_error_map_seq by lia.
    f_equal. rewrite !fromZ_R. cbn [add mul div sub Scalar_R].
    change (Z.of_nat 159) with 159%Z. field.
Qed.

Lemma sample_time_in_span (k : nat) :
  (k < 160)%nat ->
  (0 <= IZR (Z.of_nat k) * 160 / 159 <= 160)%R.
Proof.
  intros Hk.
  assert (0 <= IZR (Z.of_nat k) <= 159)%R.
  { split; [apply IZR_le; lia |].
    change 159%R with (IZR 159). apply IZR_le. lia. }
  lra.
Qed.

(** X12. In exact arithmetic the 160 sample times run from day 0 to day
    160 in steps of 160/159 of a day: sample [k] is at day [160 k / 159],
    and a later sample is at a later time.  Hence sample [k] is not day
    [k], except for [k = 0]. *)
Theorem sample_times_are_evenly_spaced (k : nat) :
  (k < 160)%nat ->
  nth_error (t_eval (num := R)) k = Some (IZR (Z.of_nat k) * 160 / 159)%R /\
  (0 <= IZR (Z.of_nat k) * 160 / 159 <= 160)%R /\
  (forall j : nat, (j < k)%nat ->
     (IZR (Z.of_nat j) * 160 / 159 < IZR (Z.of_nat k) * 160 / 159)%R) /\
  (k <> 0%nat -> (IZR (Z.of_nat k) * 160 / 159 <> IZR (Z.of_nat k))%R).
Proof.
  intros Hk. split; [exact (t_eval_nth k Hk) |].
  split; [exact (sample_time_in_span k Hk) |].
  split.
  - intros j Hj.
    assert (IZR (Z.of_nat j) < IZR (Z.of_nat k))%R by (apply IZR_lt; lia).
    lra.
  - intros Hk0.
    assert (0 < IZR (Z.of_nat k))%R.
    { change 0%R with (IZR 0). apply IZR_lt. lia. }
    lra.
Qed.

Lemma sample_times_are_evenly_spaced_witness :
  nth_error (t_eval (num := R)) 159 =
    Some (IZR (Z.of_nat 159) * 160 / 159)%R /\
  (0 <= IZR (Z.of_nat 159) * 160 / 159 <= 160)%R /\
  (forall j : nat, (j < 159)%nat ->
     (IZR (Z.of_nat j) * 160 / 159 < IZR (Z.of_nat 159) * 160 / 159)%R) /\
  (159%nat <> 0%nat ->
   (IZR (Z.of_nat 159) * 160 / 159 <> IZR (Z.of_nat 159))%R).
Proof.
  apply (sample_times_are_evenly_spaced 159). lia.
Defined.

(** X13. When the solver reports on the requested sample times (as
    [solve_ivp] does when it succeeds) and the infected row has 160
    samples, the peak day is the time of the sample [np.argmax] selects,
    [160 k / 159] in exact arithmetic, which lies between day 0 and day
    160. *)
Theorem peak_day_is_a_sample_time (sol : OdeResult R) (I_ : list R) :
  t sol = t_eval ->
  nth_error (y sol) 1 = Some I_ ->
  List.length I_ = 160%nat ->
  exists k : nat,
    (k < 160)%nat /\
    argmax I_ = Ok (Z.of_nat k) /\
    peak_day_plague sol = Ok (IZR (Z.of_nat k) * 160 / 159)%R /\
    peak_day_covid sol = Ok (IZR (Z.of_nat k) * 160 / 159)%R /\
    (0 <= IZR (Z.of_nat k) * 160 / 159 <= 160)%R.
Proof.
  intros Ht Hrow Hlen.
  destruct (argmax_in_bounds I_) as (i & Harg & Hi).
  { intros ->. discriminate. }
  rewrite Hlen in Hi.
  exists (Z.to_nat i).
  assert (Hk : (Z.to_nat i < 160)%nat) by lia.
  rewrite Z2Nat.id by lia.
  split; [exact Hk |]. split; [exact Harg |].
  pose proof (getitem_nth_error (y sol) 1 I_ Hrow) as Hr.
  change (Z.of_nat 1) with 1%Z in Hr.
  pose proof (getitem_nth_error _ _ _ (t_eval_nth _ Hk)) as Hday.
  rewrite Z2Nat.id in Hday by lia.
  unfold peak_day_plague, peak_day_covid.
  rewrite Hr, Ht. simpl bind. rewrite Harg. simpl bind. rewrite Hday.
  repeat split; try reflexivity.
  - pose proof (sample_time_in_span _ Hk) as Hb.
    rewrite Z2Nat.id in Hb by lia. apply Hb.
  - pose proof (sample_time_in_span _ Hk) as Hb.
    rewrite Z2Nat.id in Hb by lia. apply Hb.
Qed.

Lemma peak_day_is_a_sample_time_witness :
  exists k : nat,
    (k < 160)%nat /\
    argmax (sample_row (num := R) sample_I) = Ok (Z.of_nat k) /\
    peak_day_plague (sample_solution : OdeResult R)
      = Ok (IZR (Z.of_nat k) * 160 / 159)%R /\
    peak_day_covid (sample_solution : OdeResult R)
      = Ok (IZR (Z.of_nat k) * 160 / 159)%R /\
    (0 <= IZR (Z.of_nat k) * 160 / 159 <= 160)%R.
Proof.
  apply (peak_day_is_a_sample_time sample_solution (sample_row sample_I)).
  - reflexivity.
  - reflexivity.
  - reflexivity.
Defined.

(* ================================================================== *)
(** * Ties and NaN in binary64 *)
(* ================================================================== *)

(** X14. In binary64, when a finite value lies exactly half way between two
    integers, [.0f] prints the even one (2.5 prints as 2, 3.5 as 4): the
    digits printed are those of an even integer at distance one half from
    the value. *)
Theorem format_rounds_half_to_even
    (x : float) (s : bool) (m p : positive) :
  Prim2SF x = S754_finite s m (Zneg p) ->
  (2 * (Npos m mod 2 ^ Npos p) = 2 ^ Npos p)%N ->
  fmt0 x = (sign_str s ++ decimal (round_half_even m (Zneg p)))%string /\
  N.even (round_half_even m (Zneg p)) = true /\
  (Qabs (magnitude m (Zneg p)
         - inject_Z (Z.of_N (round_half_even m (Zneg p)))) == 1 # 2)%Q.
Proof.
  intros Hx Htie. split; [| split].
  - simpl. unfold fmt0_float. rewrite Hx. reflexivity.
  - unfold round_half_even. rewrite Htie, N.compare_refl.
    destruct (N.even (N.pos m / 2 ^ N.pos p)) eqn:He; [exact He |].
    rewrite N.add_1_r, N.even_succ, <- N.negb_even, He. reflexivity.
  - unfold round_half_even, magnitude. rewrite Htie, N.compare_refl.
    set (d := (2 ^ N.pos p)%N) in *.
    assert (Hd : Z.of_N d = Z.pos (2 ^ p)).
    { unfold d. rewrite N2Z.inj_pow. simpl Z.of_N.
      rewrite Pos2Z.inj_pow. reflexivity. }
    assert (Hd0 : d <> 0%N) by (unfold d; apply N.pow_nonzero; discriminate).
    pose proof (N.div_mod (N.pos m) d Hd0) as Hdm.
    set (q := (N.pos m / d)%N) in *. set (r := (N.pos m mod d)%N) in *.
    apply (f_equal Z.of_N) in Hdm, Htie.
    rewrite N2Z.inj_add, N2Z.inj_mul in Hdm. rewrite N2Z.inj_mul in Htie.
    simpl Z.of_N in Hdm at 1. change (Z.of_N 2) with 2%Z in Htie.
    assert (Hgoal : forall n : BinNums.N,
      (2 * Z.abs (Z.pos m - Z.of_N n * Z.of_N d) = Z.of_N d)%Z ->
      (Qabs ((Z.pos m # 2 ^ p) - inject_Z (Z.of_N n)) == 1 # 2)%Q).
    { intros n Hn. unfold Qeq, Qabs, Qminus, Qplus, Qopp, inject_Z.
      cbn [Qnum Qden]. rewrite Hd in Hn. rewrite Pos.mul_1_r.
      set (D := Z.pos (2 ^ p)) in *. lia. }
    apply Hgoal.
    destruct (N.even q); rewrite ?N2Z.inj_add; simpl Z.of_N; lia.
Qed.

Lemma format_rounds_half_to_even_witness :
  fmt0 0x1.4p+1%float =
    (sign_str false
     ++ decimal (round_half_even 5629499534213120 (-51)))%string /\
  N.even (round_half_even 5629499534213120 (-51)) = true /\
  (Qabs (magnitude 5629499534213120 (-51)
         - inject_Z (Z.of_N (round_half_even 5629499534213120 (-51))))
   == 1 # 2)%Q.
Proof.
  apply (format_rounds_half_to_even 0x1.4p+1%float false
           5629499534213120 51).
  - vm_compute. reflexivity.
  - vm_compute. reflexivity.
Defined.

(** What [.0f] prints for 0.5, 1.5, 2.5, 3.5 and -0.4. *)
Example format_examples :
  map fmt0 [0x1p-1; 0x1.8p+0; 0x1.4p+1; 0x1.cp+1]%float
    = ["0"; "2"; "2"; "4"]%string /\
  fmt0 (PrimFloat.opp 0x1.999999999999ap-2)%float = "-0"%string.
Proof. split; vm_compute; reflexivity. Qed.

Section NaN.

Context {num : Type} `{Scalar num}.

(** The one property of NaN the scan relies on: [x <= y] is false when [x]
    is a NaN. *)
Hypothesis nan_leb : forall x y : num, isnan x = true -> leb x y = false.

(** From a running maximum that is not a NaN, the scan stops at the first
    NaN of what remains, if there is one. *)
Lemma argmax_from_stops_at_nan (a : list num) (mp : num) (max_ind i : nat) :
  no_nan a = false ->
  exists (k : nat) (v : num),
    argmax_from mp max_ind i a = (i + k)%nat /\
    nth_error a k = Some v /\ isnan v = true /\
    no_nan (firstn k a) = true.
Proof.
  revert mp max_ind i.
  induction a as [| x a IH]; intros mp max_ind i Hnan; [discriminate |].
  simpl in Hnan. destruct (isnan x) eqn:Hx.
  - exists 0%nat, x. simpl. rewrite (nan_leb x mp Hx), Hx. simpl.
    repeat split; try assumption; lia.
  - simpl in Hnan. simpl argmax_from. rewrite Hx.
    destruct (negb (leb x mp)).
    + destruct (IH x i (S i) Hnan) as (k & v & E & Hv & Hvn & Hpre).
      exists (S k), v. rewrite E. simpl. rewrite Hx. simpl.
      repeat split; try assumption; lia.
    + destruct (IH mp max_ind (S i) Hnan) as (k & v & E & Hv & Hvn & Hpre).
      exists (S k), v. rewrite E. simpl. rewrite Hx. simpl.
      repeat split; try assumption; lia.
Qed.

(** [np.argmax] of a series that holds a NaN is the index of its first
    NaN. *)
Lemma argmax_first_nan (a : list num) :
  no_nan a = false ->
  exists (k : nat) (v : num),
    argmax a = Ok (Z.of_nat k) /\
    nth_error a k = Some v /\ isnan v = true /\
    no_nan (firstn k a) = true.
Proof.
  destruct a as [| x a]; [discriminate |]. intros Hnan.
  unfold argmax. destruct (isnan x) eqn:Hx.
  - exists 0%nat, x. repeat split. exact Hx.
  - simpl in Hnan. rewrite Hx in Hnan. simpl in Hnan.
    destruct (argmax_from_stops_at_nan a x 0 1 Hnan)
      as (k & v & E & Hv & Hvn & Hpre).
    exists (S k), v. rewrite E. simpl. rewrite Hx. simpl.
    repeat split; assumption.
Qed.

End NaN.

Lemma SFeqb_refl (a : spec_float) : a <> S754_nan -> SFeqb a a = true.
Proof.
  unfold SFeqb, SFcompare.
  destruct a as [[] | [] | | [] m e]; simpl; try easy;
    rewrite Z.compare_refl;
    change (Pos.compare_cont Eq m m) with (Pos.compare m m);
    rewrite Pos.compare_refl; reflexivity.
Qed.

Lemma float_isnan_true (x : float) :
  isnan x = true -> Prim2SF x = S754_nan.
Proof.
  simpl. rewrite negb_true_iff, eqb_spec. intros E.
  destruct (Prim2SF x) eqn:Hx; try reflexivity;
    rewrite SFeqb_refl in E; discriminate.
Qed.

Lemma float_nan_leb (x y : float) : isnan x = true -> leb x y = false.
Proof.
  intros Hx. apply float_isnan_true in Hx.
  simpl. rewrite leb_spec, Hx. reflexivity.
Qed.

(** X15. In binary64, if the infected series holds a NaN (a solver that
    broke down), [np.argmax] stops at the first one: the peak infected is
    that NaN, Deaths at Peak is a NaN as well, and both are printed as
    [nan]. *)
Theorem nan_reaches_the_peak (sol : OdeResult float) (I_ : list float) :
  nth_error (y sol) 1 = Some I_ ->
  no_nan I_ = false ->
  exists (k : nat) (peak deaths_p deaths_c : float),
    nth_error I_ k = Some peak /\
    no_nan (firstn k I_) = true /\
    isnan peak = true /\
    peak_infected_plague sol = Ok peak /\
    peak_infected_covid sol = Ok peak /\
    deaths_peak_plague sol = Ok deaths_p /\
    deaths_peak_covid sol = Ok deaths_c /\
    fmt0 peak = "nan"%string /\
    fmt0 deaths_p = "nan"%string /\
    fmt0 deaths_c = "nan"%string.
Proof.
  intros Hrow Hnan.
  destruct (argmax_first_nan float_nan_leb I_ Hnan)
    as (k & v & Harg & Hv & Hvn & Hpre).
  pose proof (getitem_nth_error (y sol) 1 I_ Hrow) as Hr.
  change (Z.of_nat 1) with 1%Z in Hr.
  assert (Hpeak : peak_infected_plague sol = Ok v).
  { unfold peak_infected_plague. rewrite Hr. simpl bind.
    rewrite Harg. simpl bind. apply getitem_nth_error, Hv. }
  assert (Hsf : Prim2SF v = S754_nan) by (apply float_isnan_true, Hvn).
  assert (Hmul : forall c : float, fmt0 (mul v c) = "nan"%string).
  { intros c. simpl. unfold fmt0_float. rewrite mul_spec, Hsf. reflexivity. }
  exists k, v, (mul v (lit 0.1)), (mul v (lit 0.014)).
  split; [exact Hv |]. split; [exact Hpre |]. split; [exact Hvn |].
  split; [exact Hpeak |]. split; [exact Hpeak |].
  split; [unfold deaths_peak_plague; rewrite Hpeak; reflexivity |].
  split.
  { unfold deaths_peak_covid.
    change (peak_infected_covid sol) with (peak_infected_plague sol).
    rewrite Hpeak. reflexivity. }
  split; [simpl; unfold fmt0_float; rewrite Hsf; reflexivity |].
  split; apply Hmul.
Qed.

Lemma nan_reaches_the_peak_witness :
  exists (k : nat) (peak deaths_p deaths_c : float),
    nth_error [1; nan; nan]%float k = Some peak /\
    no_nan (firstn k [1; nan; nan]%float) = true /\
    isnan peak = true /\
    peak_infected_plague broken_solution = Ok peak /\
    peak_infected_covid broken_solution = Ok peak /\
    deaths_peak_plague broken_solution = Ok deaths_p /\
    deaths_peak_covid broken_solution = Ok deaths_c /\
    fmt0 peak = "nan"%string /\
    fmt0 deaths_p = "nan"%string /\
    fmt0 deaths_c = "nan"%string.
Proof.
  apply (nan_reaches_the_peak broken_solution [1; nan; nan]%float).
  - reflexivity.
  - vm_compute. reflexivity.
Defined.

(* ================================================================== *)
(** * The figure *)
(* ================================================================== *)

Lemma drawable_inv {num : Type} `{Scalar num} (sol : OdeResult num) :
  drawable sol = true <->
  exists (S_ I_ R_ : list num) (rest : list (list num)),
    y sol = S_ :: I_ :: R_ :: rest /\
    List.length S_ = List.length (t sol) /\
    List.length I_ = List.length (t sol) /\
    List.length R_ = List.length (t sol).
Proof.
  unfold drawable. split.
  - destruct (y sol) as [| S_ [| I_ [| R_ rest]]]; try discriminate.
    rewrite !andb_true_iff, !Nat.eqb_eq. intros ((HS & HI) & HR).
    exists S_, I_, R_, rest. auto.
  - intros (S_ & I_ & R_ & rest & -> & -> & -> & ->).
    rewrite !Nat.eqb_refl. reflexivity.
Qed.

(** X16. The figure is drawn exactly when, in both solutions, rows 0, 1 and
    2 exist and are as long as the sample times (a solution without any
    sample can be plotted), and the layout accepts the eight curves: in each
    panel the susceptible, infected and recovered rows and the infected row
    times the fatality ratio, 0.1 on the left and 0.014 on the right, each
    against the sample times.  Otherwise the plotting code raises
    [IndexError] or [ValueError], never [ZeroDivisionError]. *)
Theorem figure_is_drawn_iff_drawable
    (num : Type) (Sc : Scalar num) (tight_layout : layout num)
    (sol_plague sol_covid : OdeResult num) :
  (plotting tight_layout sol_plague sol_covid = Ok tt <->
   drawable sol_plague = true /\ drawable sol_covid = true /\
   exists (S_ I_ R_ : list num) (rest : list (list num))
          (S_' I_' R_' : list num) (rest' : list (list num)),
     y sol_plague = S_ :: I_ :: R_ :: rest /\
     y sol_covid = S_' :: I_' :: R_' :: rest' /\
     tight_layout
       [ (t sol_plague, S_); (t sol_plague, I_); (t sol_plague, R_);
         (t sol_plague, map (fun v => mul v (lit 0.1)) I_) ]
       [ (t sol_covid, S_'); (t sol_covid, I_'); (t sol_covid, R_');
         (t sol_covid, map (fun v => mul v (lit 0.014)) I_') ] = true) /\
  raises_only index_or_value (plotting tight_layout sol_plague sol_covid).
Proof.
  split; [split |].
  - intros E. apply plotting_Ok_iff in E.
    destruct E as (left & right & El & Er & Ely).
    destruct (panel_Ok_inv _ _ _ El)
      as (S_ & I_ & R_ & rest & Hy & HS & HI & HR).
    destruct (panel_Ok_inv _ _ _ Er)
      as (S_' & I_' & R_' & rest' & Hy' & HS' & HI' & HR').
    split; [apply drawable_inv; exists S_, I_, R_, rest; auto |].
    split; [apply drawable_inv; exists S_', I_', R_', rest'; auto |].
    exists S_, I_, R_, rest, S_', I_', R_', rest'.
    split; [exact Hy |]. split; [exact Hy' |].
    rewrite (panel_rows _ _ _ _ _ _ Hy HS HI HR) in El.
    rewrite (panel_rows _ _ _ _ _ _ Hy' HS' HI' HR') in Er.
    injection El as <-. injection Er as <-. exact Ely.
  - intros (Hp & Hc & S_ & I_ & R_ & rest & S_' & I_' & R_' & rest'
            & Hy & Hy' & Ely).
    apply drawable_inv in Hp, Hc.
    destruct Hp as (S1 & I1 & R1 & rest1 & Hy1 & HS & HI & HR).
    destruct Hc as (S2 & I2 & R2 & rest2 & Hy2 & HS' & HI' & HR').
    rewrite Hy in Hy1. injection Hy1 as <- <- <- <-.
    rewrite Hy' in Hy2. injection Hy2 as <- <- <- <-.
    apply plotting_Ok_iff. do 2 eexists.
    split; [exact (panel_rows _ _ _ _ _ _ Hy HS HI HR) |].
    split; [exact (panel_rows _ _ _ _ _ _ Hy' HS' HI' HR') |].
    exact Ely.
  - apply plotting_raises.
Qed.

(* ================================================================== *)
(** * Bounds on the printed totals, in exact arithmetic *)
(* ================================================================== *)

Local Open Scope R_scope.

(** X17. In exact arithmetic, when the final number of susceptible lies
    between 0 and [N], the total infected lies between 0 and [N], the
    plague deaths between 0 and 72900 and the COVID-19 deaths between 0 and
    10206, and for equal final numbers of susceptible the COVID-19 deaths
    are at most the plague deaths. *)
Theorem totals_within_population
    (sol_plague sol_covid : OdeResult R) (S_final_p S_final_c : R) :
  S_final_plague sol_plague = Ok S_final_p ->
  S_final_covid sol_covid = Ok S_final_c ->
  0 <= S_final_p <= 729000 ->
  0 <= S_final_c <= 729000 ->
  exists total_p deaths_p total_c deaths_c : R,
    total_infected_plague sol_plague = Ok total_p /\
    deaths_plague sol_plague = Ok deaths_p /\
    total_infected_covid sol_covid = Ok total_c /\
    deaths_covid sol_covid = Ok deaths_c /\
    0 <= total_p <= 729000 /\ 0 <= deaths_p <= 72900 /\
    0 <= total_c <= 729000 /\ 0 <= deaths_c <= 10206 /\
    (S_final_p = S_final_c -> deaths_c <= deaths_p).
Proof.
  intros Hp Hc Hbp Hbc.
  unfold deaths_plague, deaths_covid, total_infected_plague,
    total_infected_covid.
  rewrite Hp, Hc.
  exists (sub (fromZ N) S_final_p), (mul (sub (fromZ N) S_final_p) (lit 0.1)),
    (sub (fromZ N) S_final_c), (mul (sub (fromZ N) S_final_c) (lit 0.014)).
  do 4 (split; [reflexivity |]).
  rewrite !fromZ_R. simpl. unfold Q2R. simpl. unfold N.
  repeat split; intros; lra.
Qed.

Lemma totals_within_population_witness :
  exists total_p deaths_p total_c deaths_c : R,
    total_infected_plague three_samples = Ok total_p /\
    deaths_plague three_samples = Ok deaths_p /\
    total_infected_covid three_samples = Ok total_c /\
    deaths_covid three_samples = Ok deaths_c /\
    0 <= total_p <= 729000 /\ 0 <= deaths_p <= 72900 /\
    0 <= total_c <= 729000 /\ 0 <= deaths_c <= 10206 /\
    (1 = 1 -> deaths_c <= deaths_p).
Proof.
  apply (totals_within_population three_samples three_samples 1 1).
  - reflexivity.
  - reflexivity.
  - lra.
  - lra.
Defined.

Local Close Scope R_scope.

(* ================================================================== *)
(** * Where the exact infected curve peaks *)
(* ================================================================== *)

Local Open Scope R_scope.





Local Close Scope R_scope.
